(** * AR Focus App: the attention-to-score state machine of [src/App.tsx]

    The React component [ARFocusMVP] keeps its state in hooks; this
    development embeds that state as one record, each event handler,
    timer callback and effect as a function on it, and proves what the
    specification says about them.

    Numbers.  A JavaScript number is a binary64 float.  The health
    points and the millisecond quantities, which take fractional values,
    are kept as primitive binary64 floats with IEEE 754 arithmetic.  The
    two second counters and the seconds left, which the component only
    moves by whole steps, are kept in [Z], and so are the configured
    minutes, integers in the specification's data model: binary64
    represents them exactly far beyond any value a session reaches.

    Rendering.  A handler's state updates are batched; the render they
    cause runs the effects whose dependencies changed ([render]).  Time
    is not modelled: an event is one call of a handler or callback. *)

From Stdlib Require Import ZArith List String Ascii Bool Lia DecimalString.
From Stdlib Require Import Floats.
From Stdlib Require DecimalZ DecimalPos.
Import ListNotations.

Set Warnings "-inexact-float,-register-all".

Local Open Scope Z_scope.

(** ** The platform's [Math.min] and [Math.max] (ECMAScript 21.3.2.24/25)

    Any NaN argument gives NaN; otherwise the arguments are folded from
    the left starting at +infinity (resp. -infinity), with -0 below +0. *)
Module JSMath.

Definition is_neg_zero (f : float) : bool := is_zero f && get_sign f.
Definition is_pos_zero (f : float) : bool := is_zero f && negb (get_sign f).

Definition min_step (lowest number : float) : float :=
  if is_neg_zero number && is_pos_zero lowest then number
  else if (number <? lowest)%float then number
  else lowest.

Definition max_step (highest number : float) : float :=
  if is_pos_zero number && is_neg_zero highest then number
  else if (highest <? number)%float then number
  else highest.

Definition min (a b : float) : float :=
  if is_nan a || is_nan b then nan
  else min_step (min_step infinity a) b.

Definition max (a b : float) : float :=
  if is_nan a || is_nan b then nan
  else max_step (max_step neg_infinity a) b.

End JSMath.

(** ** Data model *)

Inductive Mode : Set := alpha | beta.

(** [type SessionLog] of the source. *)
Module SessionLog.
Record t : Set := mk {
  id : string;
  startedAt : string;
  endedAt : string;
  durationSec : Z;
  workMinutes : Z;
  breakMinutes : Z;
  focusSec : Z;
  distractSec : Z;
  hpStart : float;
  hpEnd : float;
  mode : Mode
}.
End SessionLog.

(** ** The platform's [JSON.parse] (ECMA-404 grammar)

    [loadSessions] hands the persisted text to [JSON.parse].  The values
    it can return are modelled by [JSON.value]; a number literal keeps
    its exact decimal value [mantissa * 10 ^ exp10].  [JSON.parse] is a
    reference parser for the grammar: [None] stands for the SyntaxError
    the built-in throws. *)
Module JSON.

Inductive value : Set :=
| Null
| Bool (b : bool)
| Number (mantissa exp10 : Z)
| Str (s : string)
| Array (items : list value)
| Object (members : list (string * value)).

Definition is_ws (c : ascii) : bool :=
  match c with
  | " "%char | "009"%char | "010"%char | "013"%char => true
  | _ => false
  end.

Fixpoint skip_ws (s : string) : string :=
  match s with
  | String c r => if is_ws c then skip_ws r else s
  | EmptyString => s
  end.

Fixpoint strip_prefix (p s : string) : option string :=
  match p, s with
  | EmptyString, _ => Some s
  | String a p', String b s' => if Ascii.eqb a b then strip_prefix p' s' else None
  | String _ _, EmptyString => None
  end.

Definition digit_of (c : ascii) : option Z :=
  let n := Z.of_N (N_of_ascii c) in
  if (48 <=? n) && (n <=? 57) then Some (n - 48) else None.

Definition hex_of (c : ascii) : option Z :=
  let n := Z.of_N (N_of_ascii c) in
  if (48 <=? n) && (n <=? 57) then Some (n - 48)
  else if (65 <=? n) && (n <=? 70) then Some (n - 55)
  else if (97 <=? n) && (n <=? 102) then Some (n - 87)
  else None.

(** Reads a maximal run of decimal digits: value so far, digits read, rest. *)
Fixpoint digits (s : string) (acc : Z) (count : Z) : Z * Z * string :=
  match s with
  | String c r =>
      match digit_of c with
      | Some d => digits r (10 * acc + d) (count + 1)
      | None => (acc, count, s)
      end
  | EmptyString => (acc, count, s)
  end.

Definition parse_int (s : string) : option (Z * string) :=
  match s with
  | String "0" r => Some (0, r)
  | _ => let '(n, k, r) := digits s 0 0 in if 0 <? k then Some (n, r) else None
  end.

Definition parse_frac (m : Z) (s : string) : option (Z * Z * string) :=
  match s with
  | String "." r =>
      let '(n, k, r') := digits r m 0 in
      if 0 <? k then Some (n, - k, r') else None
  | _ => Some (m, 0, s)
  end.

Definition parse_exp (s : string) : option (Z * string) :=
  let body (neg : bool) (r : string) :=
    let '(n, k, r') := digits r 0 0 in
    if 0 <? k then Some (if neg then - n else n, r') else None in
  match s with
  | String "e" (String "-" r) | String "E" (String "-" r) => body true r
  | String "e" (String "+" r) | String "E" (String "+" r) => body false r
  | String "e" r | String "E" r => body false r
  | _ => Some (0, s)
  end.

Definition parse_number (s : string) : option (value * string) :=
  let '(neg, s0) := match s with String "-" r => (true, r) | _ => (false, s) end in
  match parse_int s0 with
  | None => None
  | Some (i, s1) =>
      match parse_frac i s1 with
      | None => None
      | Some (m, e, s2) =>
          match parse_exp s2 with
          | None => None
          | Some (x, s3) => Some (Number (if neg then - m else m) (e + x), s3)
          end
      end
  end.

(** UTF-8 bytes of a UTF-16 code unit given by a [\uXXXX] escape. *)
Definition utf8 (n : Z) : string :=
  let byte (z : Z) := ascii_of_N (Z.to_N z) in
  if n <? 128 then String (byte n) EmptyString
  else if n <? 2048 then
    String (byte (192 + n / 64)) (String (byte (128 + n mod 64)) EmptyString)
  else
    String (byte (224 + n / 4096))
      (String (byte (128 + (n / 64) mod 64))
         (String (byte (128 + n mod 64)) EmptyString)).

Definition parse_escape (s : string) : option (string * string) :=
  let one (c : ascii) (r : string) := Some (String c EmptyString, r) in
  match s with
  | String "034"%char r => one "034"%char r
  | String "092"%char r => one "092"%char r
  | String "/"%char r => one "/"%char r
  | String "b"%char r => one "008"%char r
  | String "f"%char r => one "012"%char r
  | String "n"%char r => one "010"%char r
  | String "r"%char r => one "013"%char r
  | String "t"%char r => one "009"%char r
  | String "u"%char (String a (String b (String c (String d r)))) =>
      match hex_of a, hex_of b, hex_of c, hex_of d with
      | Some x3, Some x2, Some x1, Some x0 =>
          Some (utf8 (4096 * x3 + 256 * x2 + 16 * x1 + x0), r)
      | _, _, _, _ => None
      end
  | _ => None
  end.

(** The characters after an opening quote, up to the closing one. *)
Fixpoint parse_chars (fuel : nat) (s : string) : option (string * string) :=
  match fuel with
  | O => None
  | S fuel' =>
      match s with
      | EmptyString => None
      | String "034"%char r => Some (EmptyString, r)
      | String "092"%char r =>
          match parse_escape r with
          | Some (cs, r') =>
              match parse_chars fuel' r' with
              | Some (t, r'') => Some (append cs t, r'')
              | None => None
              end
          | None => None
          end
      | String c r =>
          if (N_of_ascii c <? 32)%N then None
          else match parse_chars fuel' r with
               | Some (t, r') => Some (String c t, r')
               | None => None
               end
      end
  end.

Fixpoint parse_value (fuel : nat) (s : string) {struct fuel} : option (value * string) :=
  match fuel with
  | O => None
  | S fuel' =>
      match skip_ws s with
      | EmptyString => None
      | String "n"%char _ as t => option_map (pair Null) (strip_prefix "null" t)
      | String "t"%char _ as t => option_map (pair (Bool true)) (strip_prefix "true" t)
      | String "f"%char _ as t => option_map (pair (Bool false)) (strip_prefix "false" t)
      | String "034"%char r =>
          match parse_chars (S (String.length r)) r with
          | Some (str, r') => Some (Str str, r')
          | None => None
          end
      | String "["%char r =>
          match skip_ws r with
          | String "]"%char r' => Some (Array [], r')
          | r0 => match parse_elements fuel' r0 with
                  | Some (vs, r') => Some (Array vs, r')
                  | None => None
                  end
          end
      | String "{"%char r =>
          match skip_ws r with
          | String "}"%char r' => Some (Object [], r')
          | r0 => match parse_members fuel' r0 with
                  | Some (ms, r') => Some (Object ms, r')
                  | None => None
                  end
          end
      | t => parse_number t
      end
  end
with parse_elements (fuel : nat) (s : string) {struct fuel} : option (list value * string) :=
  match fuel with
  | O => None
  | S fuel' =>
      match parse_value fuel' s with
      | None => None
      | Some (v, r) =>
          match skip_ws r with
          | String ","%char r' =>
              match parse_elements fuel' r' with
              | Some (vs, r'') => Some (v :: vs, r'')
              | None => None
              end
          | String "]"%char r' => Some ([v], r')
          | _ => None
          end
      end
  end
with parse_members (fuel : nat) (s : string) {struct fuel}
    : option (list (string * value) * string) :=
  match fuel with
  | O => None
  | S fuel' =>
      match skip_ws s with
      | String "034"%char r =>
          match parse_chars (S (String.length r)) r with
          | None => None
          | Some (key, r1) =>
              match skip_ws r1 with
              | String ":"%char r2 =>
                  match parse_value fuel' r2 with
                  | None => None
                  | Some (v, r3) =>
                      match skip_ws r3 with
                      | String ","%char r4 =>
                          match parse_members fuel' r4 with
                          | Some (ms, r5) => Some ((key, v) :: ms, r5)
                          | None => None
                          end
                      | String "}"%char r4 => Some ([(key, v)], r4)
                      | _ => None
                      end
                  end
              | _ => None
              end
          end
      | _ => None
      end
  end.

(** [JSON.parse(text)]: one value, surrounded by optional white space. *)
Definition parse (text : string) : option value :=
  match parse_value (2 * String.length text + 2) text with
  | Some (v, r) => match skip_ws r with EmptyString => Some v | _ => None end
  | None => None
  end.

End JSON.

(** ** Session store: [loadSessions] *)

(** An element of the in-memory [sessions] array: an object built by
    [stopAndSave], or whatever [JSON.parse] produced at mount (the source
    casts the parsed array to [SessionLog[]] without looking at it). *)
Inductive Entry : Set :=
| Saved (log : SessionLog.t)
| Loaded (v : JSON.value).

Section LoadSessions.

(** [JSON.parse]; [None] when it throws. *)
Variable JSON_parse : string -> option JSON.value.

(** [raw] is [localStorage.getItem(STORAGE_KEY)]: [None] for [null].
    [!raw] holds for [null] and for the empty string. *)
Definition loadSessions (raw : option string) : list JSON.value :=
  match raw with
  | None => []
  | Some EmptyString => []
  | Some text =>
      match JSON_parse text with
      | None => []
      | Some (JSON.Array arr) => arr
      | Some _ => []
      end
  end.

End LoadSessions.

(** ** Component state: the hooks of [ARFocusMVP]

    [focusedNow] is [boolean | null]: [Some true], [Some false], [None].
    [persisted] is what the component last wrote under [STORAGE_KEY]:
    [Some list] stands for the text [JSON.stringify(list)], [None] for
    no write since mount.  The camera and model plumbing ([cameraOn],
    [modelReady], [inferenceActive], the refs to DOM nodes) reaches the
    state machine only through the inputs of [loop] and is not kept. *)
Record State : Set := mkState {
  workMinutes : Z;
  breakMinutes : Z;
  isRunning : bool;
  isOnBreak : bool;
  secondsLeft : Z;
  hp : float;
  focusedNow : option bool;
  distractionStreakMs : float;
  focusSec : Z;
  distractSec : Z;
  hpStartRef : float;
  mode : Mode;
  lastInferTs : float;
  sessions : list Entry;
  sessionStartRef : option string;
  persisted : option (list Entry)
}.

Definition distractGraceMs : float := 1500.
Definition focusRewardPerSec : float := 0.06.
Definition distractPenaltyPerSec : float := 0.5.

Definition setWorkMinutes (v : Z) (s : State) : State :=
  let '(mkState _ b c d e f g h i j k l m n o p) := s in mkState v b c d e f g h i j k l m n o p.
Definition setBreakMinutes (v : Z) (s : State) : State :=
  let '(mkState a _ c d e f g h i j k l m n o p) := s in mkState a v c d e f g h i j k l m n o p.
Definition setIsRunning (v : bool) (s : State) : State :=
  let '(mkState a b _ d e f g h i j k l m n o p) := s in mkState a b v d e f g h i j k l m n o p.
Definition setIsOnBreak (v : bool) (s : State) : State :=
  let '(mkState a b c _ e f g h i j k l m n o p) := s in mkState a b c v e f g h i j k l m n o p.
Definition setSecondsLeft (v : Z) (s : State) : State :=
  let '(mkState a b c d _ f g h i j k l m n o p) := s in mkState a b c d v f g h i j k l m n o p.
Definition setHp (v : float) (s : State) : State :=
  let '(mkState a b c d e _ g h i j k l m n o p) := s in mkState a b c d e v g h i j k l m n o p.
Definition setFocusedNow (v : option bool) (s : State) : State :=
  let '(mkState a b c d e f _ h i j k l m n o p) := s in mkState a b c d e f v h i j k l m n o p.
Definition setDistractionStreakMs (v : float) (s : State) : State :=
  let '(mkState a b c d e f g _ i j k l m n o p) := s in mkState a b c d e f g v i j k l m n o p.
Definition setFocusSec (v : Z) (s : State) : State :=
  let '(mkState a b c d e f g h _ j k l m n o p) := s in mkState a b c d e f g h v j k l m n o p.
Definition setDistractSec (v : Z) (s : State) : State :=
  let '(mkState a b c d e f g h i _ k l m n o p) := s in mkState a b c d e f g h i v k l m n o p.
Definition setHpStartRef (v : float) (s : State) : State :=
  let '(mkState a b c d e f g h i j _ l m n o p) := s in mkState a b c d e f g h i j v l m n o p.
Definition setMode (v : Mode) (s : State) : State :=
  let '(mkState a b c d e f g h i j k _ m n o p) := s in mkState a b c d e f g h i j k v m n o p.
Definition setLastInferTs (v : float) (s : State) : State :=
  let '(mkState a b c d e f g h i j k l _ n o p) := s in mkState a b c d e f g h i j k l v n o p.
Definition setSessions (v : list Entry) (s : State) : State :=
  let '(mkState a b c d e f g h i j k l m _ o p) := s in mkState a b c d e f g h i j k l m v o p.
Definition setSessionStartRef (v : option string) (s : State) : State :=
  let '(mkState a b c d e f g h i j k l m n _ p) := s in mkState a b c d e f g h i j k l m n v p.

(** [saveSessions(list)]: [localStorage.setItem(STORAGE_KEY, JSON.stringify(list))]. *)
Definition saveSessions (list : list Entry) (s : State) : State :=
  let '(mkState a b c d e f g h i j k l m n o _) := s in mkState a b c d e f g h i j k l m n o (Some list).

(** JavaScript truthiness of [focusedNow]: only [true] is truthy. *)
Definition truthy (v : option bool) : bool :=
  match v with Some true => true | _ => false end.

(** JavaScript truthiness of a [string | null]: [null] and the empty
    string are falsy. *)
Definition isSet (r : option string) : bool :=
  match r with Some (String _ _) => true | _ => false end.

(** [r || d] on a [string | null]. *)
Definition orElse (r : option string) (d : string) : string :=
  match r with Some (String c t) => String c t | _ => d end.

(** [Array.prototype.slice(0, n)]. *)
Definition slice0 {A : Type} (n : nat) (l : list A) : list A := firstn n l.

(** The state right after the first render: the hook initialisers, with
    [sessions] initialised from [loadSessions()]. *)
Definition mount (loaded : list JSON.value) : State :=
  {| workMinutes := 25; breakMinutes := 5;
     isRunning := false; isOnBreak := false;
     secondsLeft := 25 * 60;
     hp := 100; focusedNow := None; distractionStreakMs := 0;
     focusSec := 0; distractSec := 0; hpStartRef := 100;
     mode := alpha; lastInferTs := 0;
     sessions := map Loaded loaded;
     sessionStartRef := None; persisted := None |}.

(** ** The 1 Hz interval callback (source lines 99-115)

    The closure reads [isOnBreak], [breakMinutes], [workMinutes] and
    [focusedNow] of the render that installed the interval; all four are
    dependencies of the installing effect, so they are the current ones. *)
Definition tick (s : State) : State :=
  let s1 :=
    if secondsLeft s <=? 1 then
      let nextIsBreak := negb (isOnBreak s) in
      setSecondsLeft ((if nextIsBreak then breakMinutes s else workMinutes s) * 60)
        (setIsOnBreak nextIsBreak s)
    else setSecondsLeft (secondsLeft s - 1) s in
  let delta := if truthy (focusedNow s) then focusRewardPerSec
               else (- distractPenaltyPerSec)%float in
  let s2 := setHp (JSMath.max 0 (JSMath.min 100 (hp s1 + delta)%float)) s1 in
  if truthy (focusedNow s) then setFocusSec (focusSec s2 + 1) s2
  else setDistractSec (distractSec s2 + 1) s2.

(** ** The inference loop body (source lines 168-220)

    [ready] is [det && modelReady && video.readyState >= 2]; the
    detector either returns a number of faces or throws. *)
Inductive Detection : Set :=
| Faces (count : nat)
| Throws.

Definition loop (ts : float) (ready : bool) (d : Detection) (s : State) : State :=
  if ready then
    let elapsed := (ts - lastInferTs s)%float in
    if (200 <? elapsed)%float then
      let s1 := setLastInferTs ts s in
      match d with
      | Throws => setFocusedNow None s1
      | Faces count =>
          let present := (0 <? count)%nat in
          if negb present then
            let next := (distractionStreakMs s1 + elapsed)%float in
            let s2 := if (distractGraceMs <? next)%float
                      then setFocusedNow (Some false) s1 else s1 in
            setDistractionStreakMs next s2
          else setFocusedNow (Some true) (setDistractionStreakMs 0 s1)
      end
    else s
  else setFocusedNow None s.

(** ** The two reload effects (source lines 89-95)

    [useEffect(f, deps)] runs [f] after a render in which a dependency
    differs from the previous render.  [prev] is the state of the
    previous render, [next] the one being committed. *)
Definition workReloadEffect (prev next : State) (s : State) : State :=
  let changed := negb ((workMinutes prev =? workMinutes next)
                       && Bool.eqb (isRunning prev) (isRunning next)
                       && Bool.eqb (isOnBreak prev) (isOnBreak next)) in
  if changed && negb (isRunning next) && negb (isOnBreak next)
  then setSecondsLeft (workMinutes next * 60) s else s.

Definition breakReloadEffect (prev next : State) (s : State) : State :=
  let changed := negb ((breakMinutes prev =? breakMinutes next)
                       && Bool.eqb (isRunning prev) (isRunning next)
                       && Bool.eqb (isOnBreak prev) (isOnBreak next)) in
  if changed && negb (isRunning next) && isOnBreak next
  then setSecondsLeft (breakMinutes next * 60) s else s.

(** A handler's batched updates, then the effects of the render they cause. *)
Definition render (handler : State -> State) (s : State) : State :=
  let next := handler s in
  breakReloadEffect s next (workReloadEffect s next next).

(** ** Event handlers (source lines 231-281, 354, 360, 365) *)

Definition startTimer (now : string) (s : State) : State :=
  if negb (isRunning s) then
    let s1 := setIsRunning true s in
    if negb (isSet (sessionStartRef s1))
    then setHpStartRef (hp s1) (setSessionStartRef (Some now) s1)
    else s1
  else s.

Definition pauseTimer (s : State) : State := setIsRunning false s.

Definition resetTimer (s : State) : State :=
  let s := setIsRunning false s in
  let s := setIsOnBreak false s in
  let s := setSecondsLeft (workMinutes s * 60) s in
  let s := setFocusSec 0 s in
  let s := setDistractSec 0 s in
  let s := setHp 100 s in
  setSessionStartRef None s.

(** The clock readings of [stopAndSave]: the two [new Date().toISOString()]
    and [Date.now()]. *)
Record Clock : Set := mkClock {
  startIso : string;
  endIso : string;
  nowMs : Z
}.

(** The object literal [log] of [stopAndSave]. *)
Definition sessionLog (c : Clock) (s : State) : SessionLog.t :=
  {| SessionLog.id := NilZero.string_of_int (Z.to_int (nowMs c));
     SessionLog.startedAt := orElse (sessionStartRef s) (startIso c);
     SessionLog.endedAt := endIso c;
     SessionLog.durationSec := focusSec s + distractSec s;
     SessionLog.workMinutes := workMinutes s;
     SessionLog.breakMinutes := breakMinutes s;
     SessionLog.focusSec := focusSec s;
     SessionLog.distractSec := distractSec s;
     SessionLog.hpStart := hpStartRef s;
     SessionLog.hpEnd := hp s;
     SessionLog.mode := mode s |}.

Definition stopAndSave (c : Clock) (s : State) : State :=
  let log := sessionLog c s in
  let s := setIsRunning false s in
  let next := slice0 300 (Saved log :: sessions s) in
  let s := setSessions next s in
  let s := saveSessions next s in
  let s := setIsOnBreak false s in
  let s := setSecondsLeft (workMinutes s * 60) s in
  let s := setFocusSec 0 s in
  let s := setDistractSec 0 s in
  let s := setHp 100 s in
  setSessionStartRef None s.

(** [onChange] of the two number inputs; [v] is [Number(e.target.value)]. *)
Definition changeWorkMinutes (v : Z) (s : State) : State :=
  setWorkMinutes (Z.max 5 (Z.min 120 v)) s.

Definition changeBreakMinutes (v : Z) (s : State) : State :=
  setBreakMinutes (Z.max 3 (Z.min 60 v)) s.

(** ** Runs of the component *)

Inductive Event : Set :=
| ClickStart (now : string)
| ClickPause
| ClickReset
| ClickSave (c : Clock)
| IntervalTick
| AnimationFrame (ts : float) (ready : bool) (d : Detection)
| ChangeWorkMinutes (v : Z)
| ChangeBreakMinutes (v : Z)
| ChangeMode (m : Mode).

(** The interval exists only while [isRunning], and [toISOString()]
    never returns the empty text; every other event can occur in every
    state. *)
Definition fire (e : Event) (s : State) : option State :=
  match e with
  | ClickStart now =>
      if isSet (Some now) then Some (render (startTimer now) s) else None
  | ClickPause => Some (render pauseTimer s)
  | ClickReset => Some (render resetTimer s)
  | ClickSave c => Some (render (stopAndSave c) s)
  | IntervalTick => if isRunning s then Some (render tick s) else None
  | AnimationFrame ts ready d => Some (render (loop ts ready d) s)
  | ChangeWorkMinutes v => Some (render (changeWorkMinutes v) s)
  | ChangeBreakMinutes v => Some (render (changeBreakMinutes v) s)
  | ChangeMode m => Some (render (setMode m) s)
  end.

Fixpoint run (events : list Event) (s : State) : option State :=
  match events with
  | [] => Some s
  | e :: rest =>
      match fire e s with
      | Some s' => run rest s'
      | None => None
      end
  end.

(** A state the component can be in: some run from a mount leads to it. *)
Definition reachable (s : State) : Prop :=
  exists loaded events, run events (mount loaded) = Some s.

(** ** The specification's vocabulary *)

(** [AttentionState], as the component reports [focusedNow] (line 392). *)
Inductive AttentionState : Set := Focused | Distracted | Unknown.

Definition attention (s : State) : AttentionState :=
  match focusedNow s with
  | Some true => Focused
  | Some false => Distracted
  | None => Unknown
  end.

Definition ofAttention (a : AttentionState) : option bool :=
  match a with
  | Focused => Some true
  | Distracted => Some false
  | Unknown => None
  end.

(** [ClockPhase]. *)
Inductive ClockPhase : Set := Work | Break.

Definition phase (s : State) : ClockPhase := if isOnBreak s then Break else Work.

(** The configured duration of a phase, in seconds. *)
Definition phaseSeconds (p : ClockPhase) (s : State) : Z :=
  match p with Work => workMinutes s * 60 | Break => breakMinutes s * 60 end.

Definition flip (p : ClockPhase) : ClockPhase :=
  match p with Work => Break | Break => Work end.

(** [clamp(x, lo, hi)] of the specification, as the source computes it. *)
Definition clamp (x lo hi : float) : float := JSMath.max lo (JSMath.min hi x).

(** [lo <= x <= hi] on binary64; false when [x] is NaN. *)
Definition within (lo hi x : float) : bool := ((lo <=? x) && (x <=? hi))%float.

(** The debouncer in the specification's words (section 4.1): one
    presence sample with the milliseconds elapsed since the previous one. *)
Record Debouncer : Set := mkDebouncer {
  streak : float;
  signal : AttentionState
}.

Definition debounce (present : bool) (elapsedMs : float) (d : Debouncer) : Debouncer :=
  if present then {| streak := 0; signal := Focused |}
  else
    let total := (streak d + elapsedMs)%float in
    {| streak := total;
       signal := if (1500 <? total)%float then Distracted else signal d |}.

Definition debouncerOf (s : State) : Debouncer :=
  {| streak := distractionStreakMs s; signal := attention s |}.

(** A train of samples, as the frames and detections the loop sees and
    as the specification's samples: presence and the milliseconds since
    the previous sample ([since] is the time of the previous one). *)
Fixpoint frames (samples : list (float * nat)) (s : State) : State :=
  match samples with
  | [] => s
  | (ts, count) :: rest => frames rest (loop ts true (Faces count) s)
  end.

Fixpoint gaps (since : float) (samples : list (float * nat)) : list (bool * float) :=
  match samples with
  | [] => []
  | (ts, count) :: rest => ((0 <? count)%nat, (ts - since)%float) :: gaps ts rest
  end.

Fixpoint debounceAll (samples : list (bool * float)) (d : Debouncer) : Debouncer :=
  match samples with
  | [] => d
  | (present, elapsedMs) :: rest => debounceAll rest (debounce present elapsedMs d)
  end.

(** The loop samples at most once every 200 ms. *)
Definition spaced (samples : list (bool * float)) : bool :=
  forallb (fun sample => (200 <? snd sample)%float) samples.

(** One tick under a given attention signal: the debouncer has left
    [a] in [focusedNow] when the interval fires. *)
Definition tickUnder (a : AttentionState) (s : State) : State :=
  tick (setFocusedNow (ofAttention a) s).

Definition ticksUnder (signals : list AttentionState) (s : State) : State :=
  fold_left (fun acc a => tickUnder a acc) signals s.

(** Bookkeeping of the specification's session (section 4.4), kept next
    to a run: the ticks processed since the session was opened or last
    discarded, and the HP at the [start()] that opened it. *)
Record Ledger : Set := mkLedger {
  ticks : Z;
  openHp : option float
}.

Definition ledger0 : Ledger := {| ticks := 0; openHp := None |}.

(** [s] is the state in which event [e] occurs. *)
Definition record (e : Event) (s : State) (g : Ledger) : Ledger :=
  match e with
  | IntervalTick => {| ticks := ticks g + 1; openHp := openHp g |}
  | ClickReset | ClickSave _ => ledger0
  | ClickStart _ =>
      match openHp g with
      | None => {| ticks := ticks g; openHp := Some (hp s) |}
      | Some _ => g
      end
  | _ => g
  end.

Fixpoint track (events : list Event) (s : State) (g : Ledger) : option (State * Ledger) :=
  match events with
  | [] => Some (s, g)
  | e :: rest =>
      match fire e s with
      | Some s' => track rest s' (record e s g)
      | None => None
      end
  end.

(** Equal in every field but the session log, in memory and persisted. *)
Definition sameButLog (s1 s2 : State) : Prop :=
  setSessions [] (saveSessions [] s1) = setSessions [] (saveSessions [] s2).

(** What has been persisted is the in-memory log, of at most 300 entries. *)
Definition persistedCapped (s : State) : Prop :=
  forall l, persisted s = Some l -> l = sessions s /\ (List.length l <= 300)%nat.

(** The ledger agrees with the component: the two counters add up to
    the ledger's ticks, a running clock has an open session, and the HP
    noted at the opening start is the one the component keeps in
    [hpStartRef]; with no session open, HP is at 100. *)
Definition consistent (s : State) (g : Ledger) : Prop :=
  focusSec s + distractSec s = ticks g
  /\ (isRunning s = true -> isSet (sessionStartRef s) = true)
  /\ openHp g = (if isSet (sessionStartRef s) then Some (hpStartRef s) else None)
  /\ (isSet (sessionStartRef s) = false -> hp s = 100%float)
  /\ hpStartRef s = 100%float.

(** The score engine and the interval clock in the specification's words
    (sections 4.3 and 4.2), each on its own part of the state. *)
Definition scoreEngine (s : State) : State :=
  match attention s with
  | Focused =>
      setFocusSec (focusSec s + 1)
        (setHp (clamp (hp s + focusRewardPerSec) 0 100) s)
  | Distracted | Unknown =>
      setDistractSec (distractSec s + 1)
        (setHp (clamp (hp s - distractPenaltyPerSec) 0 100) s)
  end.

Definition intervalClock (s : State) : State :=
  if 1 <? secondsLeft s then setSecondsLeft (secondsLeft s - 1) s
  else
    let p := flip (phase s) in
    setSecondsLeft (phaseSeconds p s)
      (setIsOnBreak (match p with Break => true | Work => false end) s).

(** All the orders in which [n] focused and [m] distracted ticks can come. *)
Fixpoint interleavings (n m : nat) {struct n} : list (list AttentionState) :=
  match n with
  | O => [repeat Distracted m]
  | S n' =>
      (fix distractedFirst (m : nat) : list (list AttentionState) :=
         map (cons Focused) (interleavings n' m)
         ++ match m with
            | O => []
            | S m' => map (cons Distracted) (distractedFirst m')
            end) m
  end.

(** The start, the ticks and the save of the specification's scoring
    example, from a fresh mount; the result is the saved entry. *)
Definition scoringExample (signals : list AttentionState) (c : Clock) : SessionLog.t :=
  sessionLog c (ticksUnder signals (render (startTimer (startIso c)) (mount []))).

Definition exampleClock : Clock :=
  {| startIso := "2026-01-01T09:00:00.000Z";
     endIso := "2026-01-01T09:00:15.000Z";
     nowMs := 1767258015000 |}.

(** The state right after the first press of Start, and one tick later. *)
Definition justStarted : State :=
  render (startTimer (startIso exampleClock)) (mount []).

Definition oneTickIn : State := tick justStarted.

(** A short session: start, then three ticks. *)
Definition exampleRun : list Event :=
  [ClickStart (startIso exampleClock); IntervalTick; IntervalTick; IntervalTick].

(** A full log: 300 loaded entries. *)
Definition fullLog : list Entry := repeat (Loaded JSON.Null) 300.

Arguments JSMath.min : simpl never.
Arguments JSMath.max : simpl never.
Arguments clamp : simpl never.


(** ** Further vocabulary: what holds of every state a run reaches *)

(** An entry of the log that the component itself saved is well formed. *)
Definition entryOk (e : Entry) : Prop :=
  match e with
  | Saved log =>
      SessionLog.durationSec log = SessionLog.focusSec log + SessionLog.distractSec log
      /\ 0 <= SessionLog.focusSec log
      /\ 0 <= SessionLog.distractSec log
      /\ SessionLog.hpStart log = 100%float
      /\ within 0 100 (SessionLog.hpEnd log) = true
      /\ 5 <= SessionLog.workMinutes log <= 120
      /\ 3 <= SessionLog.breakMinutes log <= 60
  | Loaded _ => True
  end.

Definition sound (s : State) : Prop :=
  (5 <= workMinutes s <= 120)
  /\ (3 <= breakMinutes s <= 60)
  /\ (1 <= secondsLeft s <= 7200)
  /\ (isRunning s = false -> secondsLeft s = phaseSeconds (phase s) s)
  /\ 0 <= focusSec s
  /\ 0 <= distractSec s
  /\ within 0 100 (hp s) = true
  /\ hpStartRef s = 100%float
  /\ (isRunning s = true -> isSet (sessionStartRef s) = true)
  /\ (isSet (sessionStartRef s) = false ->
      isOnBreak s = false /\ hp s = 100%float /\ focusSec s = 0 /\ distractSec s = 0)
  /\ Forall entryOk (sessions s).

(** The start time of the open session, read off the events of a run:
    the first press of Start since the last reset or save. *)
Definition openStep (opened : option string) (e : Event) : option string :=
  match e with
  | ClickReset | ClickSave _ => None
  | ClickStart now => match opened with None => Some now | Some _ => opened end
  | _ => opened
  end.

Definition openedAt (events : list Event) : option string :=
  fold_left openStep events None.

(** The entries saved during a run, newest first. *)
Fixpoint savedDuring (events : list Event) (s : State) : list Entry :=
  match events with
  | [] => []
  | e :: rest =>
      match fire e s with
      | Some s' =>
          savedDuring rest s'
          ++ match e with ClickSave c => [Saved (sessionLog c s)] | _ => [] end
      | None => []
      end
  end.

(** Equal in every field but the mode and the session log. *)
Definition sameButModeAndLog (s1 s2 : State) : Prop :=
  setMode alpha (setSessions [] (saveSessions [] s1))
  = setMode alpha (setSessions [] (saveSessions [] s2)).

Definition isChangeMode (e : Event) : bool :=
  match e with ChangeMode _ => true | _ => false end.

(** HP after [n] ticks without focus from a full bar, and after [n]
    focused ticks from an empty one. *)
Definition drained (n : nat) : float :=
  Nat.iter n (fun h => clamp (h - 0.5) 0 100) 100%float.

Definition refilled (n : nat) : float :=
  Nat.iter n (fun h => clamp (h + 0.06) 0 100) 0%float.

(** Frames that arrive while the detector or the video is not ready. *)
Fixpoint outage (frames : list (float * Detection)) (s : State) : State :=
  match frames with
  | [] => s
  | (ts, d) :: rest => outage rest (loop ts false d s)
  end.

(** ** Display and export: [formatMMSS] and [toCSV] (source lines 11-15, 51-57) *)

(** [Number.prototype.toString] on an integer: its decimal digits, with
    a minus sign below zero (JavaScript prints integers so up to 10^21). *)
Definition integerText (n : Z) : string := NilZero.string_of_int (Z.to_int n).

(** [String.prototype.padStart(target, pad)] for a pad of one character. *)
Definition padStart (target : nat) (pad : ascii) (s : string) : string :=
  Nat.iter (target - String.length s) (String pad) s.

(** On integers, [Math.floor(t / 60)] is the floored quotient and
    [t % 60] the remainder with the sign of [t]. *)
Definition formatMMSS (totalSeconds : Z) : string :=
  let m := padStart 2 "0" (integerText (totalSeconds / 60)) in
  let s := padStart 2 "0" (integerText (Z.rem totalSeconds 60)) in
  (m ++ ":" ++ s)%string.

(** Reading a clock text back: the digits before and after the colon. *)
Fixpoint splitColon (text : string) : option (string * string) :=
  match text with
  | EmptyString => None
  | String c rest =>
      if Ascii.eqb c ":" then Some (EmptyString, rest)
      else match splitColon rest with
           | Some (before, after) => Some (String c before, after)
           | None => None
           end
  end.

Definition digitsValue (digits : string) : option Z :=
  option_map Z.of_uint (NilZero.uint_of_string digits).

Definition readMMSS (text : string) : option Z :=
  match splitColon text with
  | Some (m, s) =>
      match digitsValue m, digitsValue s with
      | Some minutes, Some seconds => Some (60 * minutes + seconds)
      | _, _ => None
      end
  | None => None
  end.

Definition lineFeed : ascii := "010"%char.

Definition csvHeader : list string :=
  ["id"; "startedAt"; "endedAt"; "durationSec"; "workMinutes"; "breakMinutes";
   "focusSec"; "distractSec"; "hpStart"; "hpEnd"; "mode"]%string.

Definition modeText (m : Mode) : string :=
  match m with alpha => "alpha" | beta => "beta" end.

Section ToCSV.

(** [Number.prototype.toString] on a binary64 value, for the two HP columns. *)
Variable Number_toString : float -> string.

(** The array a row is joined from. *)
Definition csvCells (r : SessionLog.t) : list string :=
  [SessionLog.id r; SessionLog.startedAt r; SessionLog.endedAt r;
   integerText (SessionLog.durationSec r);
   integerText (SessionLog.workMinutes r);
   integerText (SessionLog.breakMinutes r);
   integerText (SessionLog.focusSec r);
   integerText (SessionLog.distractSec r);
   Number_toString (SessionLog.hpStart r);
   Number_toString (SessionLog.hpEnd r);
   modeText (SessionLog.mode r)].

(** [Array.prototype.join] is [String.concat]. *)
Definition toCSV (rows : list SessionLog.t) : string :=
  let header := String.concat "," csvHeader in
  let body := map (fun r => String.concat "," (csvCells r)) rows in
  String.concat (String lineFeed EmptyString) (header :: body).

(** The cells of a row that are free text or printed HP values. *)
Definition freeCells (r : SessionLog.t) : list string :=
  [SessionLog.id r; SessionLog.startedAt r; SessionLog.endedAt r;
   Number_toString (SessionLog.hpStart r);
   Number_toString (SessionLog.hpEnd r)].

End ToCSV.

(** [String.prototype.split] on a separator of one character. *)
Fixpoint splitOn (sep : ascii) (text : string) : list string :=
  match text with
  | EmptyString => [EmptyString]
  | String c rest =>
      if Ascii.eqb c sep then EmptyString :: splitOn sep rest
      else match splitOn sep rest with
           | piece :: pieces => String c piece :: pieces
           | [] => [String c EmptyString]
           end
  end.

Fixpoint lacks (c : ascii) (text : string) : bool :=
  match text with
  | EmptyString => true
  | String a rest => negb (Ascii.eqb a c) && lacks c rest
  end.

(** A cell that holds neither a comma nor a line feed. *)
Definition csvSafe (cell : string) : bool := lacks "," cell && lacks lineFeed cell.

(** ** Progress of the phase (source lines 295-296) *)




(** * Facts about binary64 arithmetic

    Derived from the specification of the primitive operations
    ([FloatAxioms]) over [SpecFloat]. *)
Module Binary64.

Local Open Scope float_scope.

Lemma shr_1_nonneg (mrs : shr_record) :
  (0 <= shr_m mrs)%Z -> (0 <= shr_m (shr_1 mrs))%Z.
Proof.
  destruct mrs as [m r s]; destruct m as [|p|p]; simpl; intros H;
    try destruct p; simpl; lia.
Qed.

Lemma iter_shr_1_nonneg (n : positive) :
  forall mrs, (0 <= shr_m mrs)%Z -> (0 <= shr_m (iter_pos shr_1 n mrs))%Z.
Proof.
  induction n as [n IH|n IH|]; simpl; intros mrs H.
  - apply IH, IH, shr_1_nonneg, H.
  - apply IH, IH, H.
  - apply shr_1_nonneg, H.
Qed.

Lemma shr_fexp_nonneg (prec emax m e : Z) (l : location) :
  (0 <= m)%Z -> (0 <= shr_m (fst (shr_fexp prec emax m e l)))%Z.
Proof.
  intros H. unfold shr_fexp, shr.
  assert (H0 : (0 <= shr_m (shr_record_of_loc m l))%Z)
    by (destruct l as [|[]]; exact H).
  destruct (fexp prec emax (Zdigits2 m + e) - e)%Z; simpl; auto.
  apply iter_shr_1_nonneg, H0.
Qed.

Lemma round_nearest_even_nonneg (m : Z) (l : location) :
  (0 <= m)%Z -> (0 <= round_nearest_even m l)%Z.
Proof.
  intros H. destruct l as [|[]]; simpl; try destruct (Z.even m); lia.
Qed.

Lemma binary_round_aux_not_nan (prec emax : Z) (sx : bool) (mx ex : Z) (lx : location) :
  (0 <= mx)%Z -> binary_round_aux prec emax sx mx ex lx <> S754_nan.
Proof.
  intros H. unfold binary_round_aux.
  pose proof (shr_fexp_nonneg prec emax mx ex lx H) as H1.
  destruct (shr_fexp prec emax mx ex lx) as [mrs1 e1]. simpl in H1.
  pose proof (shr_fexp_nonneg prec emax _ e1 loc_Exact
                (round_nearest_even_nonneg _ (loc_of_shr_record mrs1) H1)) as H2.
  destruct (shr_fexp prec emax _ e1 loc_Exact) as [mrs2 e2]. simpl in H2.
  destruct (shr_m mrs2); [discriminate | | lia].
  destruct (e2 <=? emax - prec)%Z; discriminate.
Qed.

Lemma binary_normalize_not_nan (prec emax m e : Z) (szero : bool) :
  binary_normalize prec emax m e szero <> S754_nan.
Proof.
  destruct m as [|p|p]; simpl; [discriminate | |];
    unfold binary_round;
    destruct (shl_align _ _ _) as [mz ez];
    apply binary_round_aux_not_nan; lia.
Qed.

(** Adding a finite number never produces NaN out of a number. *)
Lemma SFadd_finite_not_nan (x : spec_float) (s : bool) (m : positive) (e : Z) :
  x <> S754_nan -> SF64add x (S754_finite s m e) <> S754_nan.
Proof.
  intros Hx. destruct x as [sx|sx| |sx mx ex]; simpl;
    [discriminate | discriminate | congruence |].
  apply binary_normalize_not_nan.
Qed.

Lemma SFcompare_refl (x : spec_float) :
  x <> S754_nan -> SFcompare x x = Some Eq.
Proof.
  destruct x as [s|s| |s m e]; simpl; intros H;
    [reflexivity | destruct s; reflexivity | congruence |].
  rewrite Z.compare_refl, Pos.compare_cont_refl. destruct s; reflexivity.
Qed.

Lemma is_nan_spec (x : float) : is_nan x = false <-> Prim2SF x <> S754_nan.
Proof.
  unfold is_nan. rewrite eqb_spec. unfold SFeqb. split.
  - intros H E. rewrite E in H. discriminate.
  - intros H. rewrite (SFcompare_refl _ H). reflexivity.
Qed.

Lemma leb_not_nan (x y : float) :
  (x <=? y) = true -> is_nan x = false /\ is_nan y = false.
Proof.
  rewrite leb_spec, !is_nan_spec. unfold SFleb.
  destruct (Prim2SF x), (Prim2SF y); simpl; intros H; split;
    congruence.
Qed.

Lemma ltb_not_nan (x y : float) :
  (x <? y) = true -> is_nan x = false /\ is_nan y = false.
Proof.
  rewrite ltb_spec, !is_nan_spec. unfold SFltb.
  destruct (Prim2SF x), (Prim2SF y); simpl; intros H; split;
    congruence.
Qed.

Lemma ltb_leb (x y : float) : (x <? y) = true -> (x <=? y) = true.
Proof.
  rewrite ltb_spec, leb_spec. unfold SFltb, SFleb.
  destruct (SFcompare _ _) as [[]|]; congruence.
Qed.

(** [x + d] is a number when [x] is one and [d] is finite and non-zero. *)
Lemma add_finite_not_nan (x d : float) (s : bool) (m : positive) (e : Z) :
  Prim2SF d = S754_finite s m e -> is_nan x = false -> is_nan (x + d) = false.
Proof.
  intros Hd Hx. apply is_nan_spec. rewrite add_spec, Hd.
  apply SFadd_finite_not_nan. apply is_nan_spec, Hx.
Qed.

(** [Math.min(100, x)] and [Math.max(0, y)] on numbers. *)
Lemma min_100 (x : float) :
  is_nan x = false -> JSMath.min 100 x = if x <? 100 then x else 100.
Proof.
  intros Hx. unfold JSMath.min. rewrite Hx.
  change (is_nan 100 || false)%bool with false. cbv iota.
  change (JSMath.min_step infinity 100) with 100.
  unfold JSMath.min_step.
  change (JSMath.is_pos_zero 100) with false.
  rewrite andb_false_r. reflexivity.
Qed.

Lemma max_0 (y : float) :
  is_nan y = false -> JSMath.max 0 y = if 0 <? y then y else 0.
Proof.
  intros Hy. unfold JSMath.max. rewrite Hy.
  change (is_nan 0 || false)%bool with false. cbv iota.
  change (JSMath.max_step neg_infinity 0) with 0.
  unfold JSMath.max_step.
  change (JSMath.is_neg_zero 0) with false.
  rewrite andb_false_r. reflexivity.
Qed.

(** On a number, [clamp(x, 0, 100)] is [x] inside the interval and the
    nearer bound outside. *)
Lemma clamp_0_100 (x : float) :
  is_nan x = false ->
  clamp x 0 100 = if x <? 100 then (if 0 <? x then x else 0) else 100.
Proof.
  intros Hx. unfold clamp. rewrite (min_100 x Hx).
  destruct (x <? 100) eqn:E.
  - apply max_0, Hx.
  - reflexivity.
Qed.

Lemma clamp_within (x : float) :
  is_nan x = false -> within 0 100 (clamp x 0 100) = true.
Proof.
  intros Hx. rewrite (clamp_0_100 x Hx). unfold within.
  destruct (x <? 100) eqn:E1; [destruct (0 <? x) eqn:E2|]; try reflexivity.
  rewrite (ltb_leb _ _ E1), (ltb_leb _ _ E2). reflexivity.
Qed.

Lemma within_not_nan (lo hi x : float) : within lo hi x = true -> is_nan x = false.
Proof.
  unfold within. intros H. apply andb_prop in H. destruct H as [H _].
  apply (leb_not_nan _ _ H).
Qed.

End Binary64.

(** * The interval callback *)

Local Open Scope Z_scope.

(** Case analysis on what the interval callback reads from the state. *)
Ltac tick_cases s :=
  let sl := fresh "sl" in
  let ob := fresh "ob" in
  let fn := fresh "fn" in
  destruct s as [? ? ? ob sl ? fn ? ? ? ? ? ? ? ? ?];
  unfold tick; cbn [secondsLeft isOnBreak focusedNow];
  destruct (sl <=? 1) eqn:?; destruct ob; destruct fn as [[|]|]; cbn.

(** While the clock runs, the render after a tick reloads nothing. *)
Lemma render_tick (s : State) : isRunning s = true -> render tick s = tick s.
Proof.
  intros H. unfold render, workReloadEffect, breakReloadEffect.
  assert (E : isRunning (tick s) = true) by (revert H; tick_cases s; auto).
  rewrite E. cbn. rewrite !andb_false_r. reflexivity.
Qed.

Lemma fire_tick (s : State) : isRunning s = true -> fire IntervalTick s = Some (tick s).
Proof. intros H. cbn. rewrite H, (render_tick s H). reflexivity. Qed.

Lemma sub_is_add_opp (x y : float) : (x - y = x + - y)%float.
Proof.
  apply Prim2SF_inj. rewrite sub_spec, add_spec, opp_spec.
  destruct (Prim2SF x) as [sx|sx| |sx mx ex], (Prim2SF y) as [sy|sy| |sy my ey];
    try reflexivity; destruct sx, sy; reflexivity.
Qed.

(** What a tick does to the score, whatever the clock does. *)
Lemma tick_score (s : State) :
  hp (tick s) = hp (scoreEngine s)
  /\ focusSec (tick s) = focusSec (scoreEngine s)
  /\ distractSec (tick s) = distractSec (scoreEngine s).
Proof.
  unfold scoreEngine, attention, clamp, distractPenaltyPerSec.
  rewrite sub_is_add_opp.
  tick_cases s; repeat apply conj; reflexivity.
Qed.

Lemma tick_clock (s : State) :
  secondsLeft (tick s) = secondsLeft (intervalClock s)
  /\ isOnBreak (tick s) = isOnBreak (intervalClock s).
Proof.
  unfold intervalClock, phase, phaseSeconds, flip. rewrite Z.ltb_antisym.
  tick_cases s; repeat apply conj; reflexivity.
Qed.

(** A tick is the specification's clock step and score step together:
    each touches its own fields, in either order. *)
Lemma tick_decomposes (s : State) :
  tick s = intervalClock (scoreEngine s)
  /\ tick s = scoreEngine (intervalClock s).
Proof.
  unfold intervalClock, scoreEngine, attention, phase, phaseSeconds, flip,
    clamp, distractPenaltyPerSec.
  rewrite !sub_is_add_opp, !Z.ltb_antisym.
  tick_cases s; rewrite ?Heqb; cbn; repeat apply conj; reflexivity.
Qed.

(** With the two clock fields put back, a tick is the score step alone. *)
Lemma tick_restore_clock (s : State) :
  setSecondsLeft (secondsLeft s) (setIsOnBreak (isOnBreak s) (tick s)) = scoreEngine s.
Proof.
  unfold scoreEngine, attention, clamp, distractPenaltyPerSec.
  rewrite sub_is_add_opp.
  tick_cases s; reflexivity.
Qed.

Lemma hp_scoreEngine (s : State) :
  hp (scoreEngine s)
  = match attention s with
    | Focused => clamp (hp s + 0.06) 0 100
    | Distracted | Unknown => clamp (hp s - 0.5) 0 100
    end%float.
Proof.
  unfold scoreEngine. destruct (attention s); destruct s; reflexivity.
Qed.

Lemma counters_scoreEngine (s : State) :
  match attention s with
  | Focused =>
      focusSec (scoreEngine s) = focusSec s + 1
      /\ distractSec (scoreEngine s) = distractSec s
  | Distracted | Unknown =>
      distractSec (scoreEngine s) = distractSec s + 1
      /\ focusSec (scoreEngine s) = focusSec s
  end.
Proof.
  unfold scoreEngine. destruct (attention s); destruct s; split; reflexivity.
Qed.

(** A tick leaves everything but the clock and the score alone. *)
Lemma tick_frame (s : State) :
  workMinutes (tick s) = workMinutes s
  /\ breakMinutes (tick s) = breakMinutes s
  /\ isRunning (tick s) = isRunning s
  /\ focusedNow (tick s) = focusedNow s
  /\ sessions (tick s) = sessions s
  /\ persisted (tick s) = persisted s
  /\ sessionStartRef (tick s) = sessionStartRef s
  /\ hpStartRef (tick s) = hpStartRef s.
Proof. tick_cases s; repeat apply conj; reflexivity. Qed.

Lemma Prim2SF_reward :
  Prim2SF 0.06 = S754_finite false 8646911284551352 (-57).
Proof. reflexivity. Qed.

Lemma Prim2SF_penalty :
  Prim2SF (- 0.5) = S754_finite true 4503599627370496 (-53).
Proof. reflexivity. Qed.

Lemma scoreEngine_within (s : State) :
  within 0 100 (hp s) = true -> within 0 100 (hp (scoreEngine s)) = true.
Proof.
  intros H. apply Binary64.within_not_nan in H. rewrite hp_scoreEngine.
  destruct (attention s); rewrite ?sub_is_add_opp;
    apply Binary64.clamp_within;
    eauto using Binary64.add_finite_not_nan, Prim2SF_reward, Prim2SF_penalty.
Qed.

Lemma tick_within (s : State) :
  within 0 100 (hp s) = true -> within 0 100 (hp (tick s)) = true.
Proof.
  intros H. destruct (tick_score s) as [E _]. rewrite E.
  apply scoreEngine_within, H.
Qed.

Lemma hp_setFocusedNow (v : option bool) (s : State) : hp (setFocusedNow v s) = hp s.
Proof. destruct s; reflexivity. Qed.

Lemma attention_setFocusedNow (a : AttentionState) (s : State) :
  attention (setFocusedNow (ofAttention a) s) = a.
Proof. destruct s, a; reflexivity. Qed.

(** C2. From any HP in [0,100], after any finite sequence of ticks under
    arbitrary attention signals (Focused, Distracted or Unknown at each
    tick), HP is in [0,100]. *)
Theorem hp_stays_within (s : State) (signals : list AttentionState) :
  within 0 100 (hp s) = true ->
  within 0 100 (hp (ticksUnder signals s)) = true.
Proof.
  revert s. induction signals as [|a rest IH]; intros s H; simpl.
  - exact H.
  - apply IH. unfold tickUnder. apply tick_within.
    rewrite hp_setFocusedNow. exact H.
Qed.

Lemma hp_stays_within_witness :
  within 0 100 (hp oneTickIn) = true
  /\ within 0 100 (hp (ticksUnder [Focused; Distracted; Unknown] oneTickIn)) = true.
Proof.
  split; [reflexivity | apply hp_stays_within; reflexivity].
Defined.

(** Every state a run can reach has its HP in [0,100]. *)
Lemma render_only_reloads (handler : State -> State) (s : State) :
  render handler s = setSecondsLeft (secondsLeft (render handler s)) (handler s).
Proof.
  unfold render, workReloadEffect, breakReloadEffect.
  destruct (handler s); cbn.
  repeat match goal with
         | |- context [if ?b then _ else _] => destruct b
         end; reflexivity.
Qed.

Lemma hp_render (handler : State -> State) (s : State) :
  hp (render handler s) = hp (handler s).
Proof. rewrite render_only_reloads. destruct (handler s); reflexivity. Qed.

Lemma hp_startTimer (now : string) (s : State) : hp (startTimer now s) = hp s.
Proof.
  destruct s as [? ? r ? ? ? ? ? ? ? ? ? ? ? [[|? ?]|] ?]; destruct r; reflexivity.
Qed.

Lemma hp_loop (ts : float) (ready : bool) (d : Detection) (s : State) :
  hp (loop ts ready d s) = hp s.
Proof.
  destruct s; unfold loop; cbn.
  repeat match goal with
         | |- context [if ?b then _ else _] => destruct b; cbn
         | |- context [match ?x with Faces _ => _ | Throws => _ end] => destruct x; cbn
         end; reflexivity.
Qed.

Lemma fire_within (e : Event) (s s' : State) :
  fire e s = Some s' -> within 0 100 (hp s) = true -> within 0 100 (hp s') = true.
Proof.
  intros F H.
  destruct e; cbn in F.
  - destruct now; [discriminate|]. injection F as <-.
    rewrite hp_render, hp_startTimer. exact H.
  - injection F as <-. rewrite hp_render. destruct s; exact H.
  - injection F as <-. rewrite hp_render. destruct s; reflexivity.
  - injection F as <-. rewrite hp_render. destruct s; reflexivity.
  - destruct (isRunning s); [|discriminate]. injection F as <-.
    rewrite hp_render. apply tick_within, H.
  - injection F as <-. rewrite hp_render, hp_loop. exact H.
  - injection F as <-. rewrite hp_render. destruct s; exact H.
  - injection F as <-. rewrite hp_render. destruct s; exact H.
  - injection F as <-. rewrite hp_render. destruct s; exact H.
Qed.

Lemma reachable_within (s : State) : reachable s -> within 0 100 (hp s) = true.
Proof.
  intros (loaded & events & R).
  assert (G : forall evs a b, run evs a = Some b ->
                within 0 100 (hp a) = true -> within 0 100 (hp b) = true).
  { induction evs as [|e evs IH]; cbn; intros a b E Ha.
    - injection E as <-. exact Ha.
    - destruct (fire e a) as [a'|] eqn:F; [|discriminate].
      eapply IH; eauto using fire_within. }
  eapply G; [exact R | reflexivity].
Qed.

(** C3 (as amended). On every tick while running: if the attention
    state is Focused, the new HP is clamp(HP + 0.06, 0, 100), focusSec
    grows by exactly 1 and distractSec is unchanged; if it is Distracted
    or Unknown, the new HP is clamp(HP - 0.5, 0, 100), distractSec grows
    by exactly 1 and focusSec is unchanged.  Saving after 10 focused
    ticks followed by 5 distracted ticks, starting at HP = 100, yields
    hpEnd = 97.5 (the focused ticks at HP = 100 are absorbed by the
    clamp), focusSec = 10, distractSec = 5, durationSec = 15. *)
Theorem tick_scoring (s : State) (c : Clock) :
  isRunning s = true ->
  exists s', fire IntervalTick s = Some s'
    /\ (attention s = Focused ->
        hp s' = clamp (hp s + 0.06) 0 100
        /\ focusSec s' = focusSec s + 1
        /\ distractSec s' = distractSec s)
    /\ (attention s <> Focused ->
        hp s' = clamp (hp s - 0.5) 0 100
        /\ distractSec s' = distractSec s + 1
        /\ focusSec s' = focusSec s)
    /\ (let log := scoringExample (repeat Focused 10 ++ repeat Distracted 5) c in
        SessionLog.hpEnd log = 97.5%float
        /\ SessionLog.focusSec log = 10
        /\ SessionLog.distractSec log = 5
        /\ SessionLog.durationSec log = 15).
Proof.
  intros Hrun. exists (tick s). split; [apply fire_tick, Hrun|].
  destruct (tick_score s) as (Eh & Ef & Ed). rewrite Eh, Ef, Ed, hp_scoreEngine.
  pose proof (counters_scoreEngine s) as Hc.
  repeat apply conj.
  - intros A. rewrite A in *. destruct Hc. auto.
  - intros A. destruct (attention s); [congruence | |]; destruct Hc; auto.
  - reflexivity.
  - reflexivity.
  - reflexivity.
  - reflexivity.
Qed.

Lemma tick_scoring_witness :
  isRunning oneTickIn = true
  /\ exists s', fire IntervalTick oneTickIn = Some s'
       /\ hp s' = clamp (hp oneTickIn - 0.5) 0 100
       /\ distractSec s' = distractSec oneTickIn + 1
       /\ focusSec s' = focusSec oneTickIn.
Proof.
  split; [reflexivity|].
  destruct (tick_scoring oneTickIn exampleClock eq_refl) as (s' & F & _ & D & _).
  exists s'. split; [exact F|]. apply D. discriminate.
Defined.

(** The saved entry of the specification's example has hpEnd 97.5, not 97.6. *)
Lemma scoring_example_is_not_97_6 :
  let log := scoringExample (repeat Focused 10 ++ repeat Distracted 5) exampleClock in
  SessionLog.focusSec log = 10
  /\ SessionLog.distractSec log = 5
  /\ SessionLog.durationSec log = 15
  /\ SessionLog.hpEnd log = 97.5%float
  /\ SessionLog.hpEnd log <> 97.6%float.
Proof.
  repeat apply conj; try reflexivity.
  intros E.
  assert (N : (SessionLog.hpEnd
                 (scoringExample (repeat Focused 10 ++ repeat Distracted 5) exampleClock)
               =? 97.6)%float = false) by reflexivity.
  rewrite E in N. discriminate N.
Qed.

(** In no order do 10 focused and 5 distracted ticks end at 97.6. *)
Lemma no_order_gives_97_6 (signals : list AttentionState) :
  In signals (interleavings 10 5) ->
  SessionLog.hpEnd (scoringExample signals exampleClock) <> 97.6%float.
Proof.
  intros I E.
  assert (A : forallb (fun l => negb (SessionLog.hpEnd (scoringExample l exampleClock)
                                      =? 97.6)%float)
                (interleavings 10 5) = true) by (vm_compute; reflexivity).
  rewrite forallb_forall in A. specialize (A signals I).
  rewrite E in A. discriminate A.
Qed.

Lemma phase_blind_score (b : bool) (s : State) :
  hp (tick (setIsOnBreak b s)) = hp (tick s)
  /\ focusSec (tick (setIsOnBreak b s)) = focusSec (tick s)
  /\ distractSec (tick (setIsOnBreak b s)) = distractSec (tick s).
Proof.
  destruct s as [? ? ? ob sl ? fn ? ? ? ? ? ? ? ? ?]; unfold tick; cbn.
  destruct (sl <=? 1), ob, b, fn as [[|]|]; cbn; repeat apply conj; reflexivity.
Qed.

(** C10. The per-tick scoring is applied in the Break phase as in the
    Work phase: on a tick while running in Break, HP moves by +0.06 if
    Focused and by -0.5 if Distracted or Unknown (clamped), exactly one
    of focusSec and distractSec grows by one, and the outcome is the one
    the same tick has in the Work phase. *)
Theorem break_scores_like_work (s : State) :
  isRunning s = true ->
  phase s = Break ->
  exists s', fire IntervalTick s = Some s'
    /\ (attention s = Focused ->
        hp s' = clamp (hp s + 0.06) 0 100
        /\ focusSec s' = focusSec s + 1
        /\ distractSec s' = distractSec s)
    /\ (attention s <> Focused ->
        hp s' = clamp (hp s - 0.5) 0 100
        /\ distractSec s' = distractSec s + 1
        /\ focusSec s' = focusSec s)
    /\ (exists w, fire IntervalTick (setIsOnBreak false s) = Some w
        /\ phase (setIsOnBreak false s) = Work
        /\ hp s' = hp w
        /\ focusSec s' = focusSec w
        /\ distractSec s' = distractSec w).
Proof.
  intros Hrun _. exists (tick s). split; [apply fire_tick, Hrun|].
  destruct (tick_score s) as (Eh & Ef & Ed).
  pose proof (counters_scoreEngine s) as Hc.
  repeat apply conj.
  - intros A. rewrite Eh, Ef, Ed, hp_scoreEngine. rewrite A in *. destruct Hc. auto.
  - intros A. rewrite Eh, Ef, Ed, hp_scoreEngine.
    destruct (attention s); [congruence | |]; destruct Hc; auto.
  - exists (tick (setIsOnBreak false s)).
    destruct (phase_blind_score false s) as (Wh & Wf & Wd).
    repeat apply conj; auto.
    + apply fire_tick. destruct s; exact Hrun.
    + destruct s; reflexivity.
Qed.

(** The state of [oneTickIn], moved into a break. *)
Lemma break_scores_like_work_witness :
  let s := setIsOnBreak true oneTickIn in
  isRunning s = true /\ phase s = Break
  /\ exists s', fire IntervalTick s = Some s'
       /\ hp s' = clamp (hp s - 0.5) 0 100
       /\ distractSec s' = distractSec s + 1.
Proof.
  intros s. split; [reflexivity|]. split; [reflexivity|].
  destruct (break_scores_like_work s eq_refl eq_refl) as (s' & F & _ & D & _).
  exists s'. split; [exact F|].
  destruct D as (D1 & D2 & _); [discriminate|]. split; assumption.
Defined.

(** ** The countdown *)

Lemma tickUnder_clock (a : AttentionState) (s : State) :
  secondsLeft (tickUnder a s)
  = (if 1 <? secondsLeft s then secondsLeft s - 1
     else phaseSeconds (flip (phase s)) s)
  /\ isOnBreak (tickUnder a s)
     = (if 1 <? secondsLeft s then isOnBreak s else negb (isOnBreak s))
  /\ workMinutes (tickUnder a s) = workMinutes s
  /\ breakMinutes (tickUnder a s) = breakMinutes s.
Proof.
  rewrite Z.ltb_antisym. unfold tickUnder, phase, phaseSeconds, flip.
  destruct s as [? ? ? ob sl ? ? ? ? ? ? ? ? ? ? ?]; unfold tick; cbn.
  destruct (sl <=? 1), ob, a; cbn; repeat apply conj; reflexivity.
Qed.

(** Fewer ticks than seconds left only count down. *)
Lemma ticksUnder_countdown (signals : list AttentionState) :
  forall s, Z.of_nat (List.length signals) < secondsLeft s ->
    secondsLeft (ticksUnder signals s) = secondsLeft s - Z.of_nat (List.length signals)
    /\ isOnBreak (ticksUnder signals s) = isOnBreak s
    /\ workMinutes (ticksUnder signals s) = workMinutes s
    /\ breakMinutes (ticksUnder signals s) = breakMinutes s.
Proof.
  induction signals as [|a rest IH]; intros s H.
  - cbn. repeat apply conj; try reflexivity. lia.
  - cbn [ticksUnder fold_left]. cbn [List.length] in H.
    destruct (tickUnder_clock a s) as (Es & Eb & Ew & Ek).
    assert (L : (1 <? secondsLeft s) = true) by (apply Z.ltb_lt; lia).
    rewrite L in Es, Eb.
    destruct (IH (tickUnder a s)) as (Is & Ib & Iw & Ik); [lia|].
    unfold ticksUnder in *. rewrite Is, Ib, Iw, Ik, Es, Eb, Ew, Ek.
    repeat apply conj; try reflexivity. cbn [List.length]. lia.
Qed.

Lemma ticksUnder_app (l1 l2 : list AttentionState) (s : State) :
  ticksUnder (l1 ++ l2) s = ticksUnder l2 (ticksUnder l1 s).
Proof. apply fold_left_app. Qed.

(** A whole phase: [secondsLeft] ticks end it and load the other phase. *)
Lemma ticksUnder_phase (signals : list AttentionState) (s : State) :
  0 < secondsLeft s ->
  Z.of_nat (List.length signals) = secondsLeft s ->
  phase (ticksUnder signals s) = flip (phase s)
  /\ secondsLeft (ticksUnder signals s) = phaseSeconds (flip (phase s)) s.
Proof.
  intros Hpos Hlen.
  destruct signals as [|a0 rest0] using rev_ind; [cbn in Hlen; lia|].
  clear IHrest0. rename a0 into a, rest0 into front.
  rewrite length_app in Hlen. cbn in Hlen.
  rewrite ticksUnder_app. cbn.
  destruct (ticksUnder_countdown front s) as (Is & Ib & Iw & Ik); [lia|].
  destruct (tickUnder_clock a (ticksUnder front s)) as (Es & Eb & _).
  assert (L : (1 <? secondsLeft (ticksUnder front s)) = false)
    by (apply Z.ltb_ge; lia).
  rewrite L in Es, Eb. unfold phase at 1. rewrite Eb, Es, Ib.
  unfold phaseSeconds, flip, phase. rewrite Ib, Iw, Ik.
  destruct (isOnBreak s); split; reflexivity.
Qed.

Lemma tickUnder_own_attention (s : State) : tickUnder (attention s) s = tick s.
Proof.
  unfold tickUnder, attention.
  destruct s as [? ? ? ? ? ? [[|]|] ? ? ? ? ? ? ? ? ?]; reflexivity.
Qed.

Lemma attention_tick (s : State) : attention (tick s) = attention s.
Proof.
  unfold attention. destruct (tick_frame s) as (_ & _ & _ & E & _).
  rewrite E. reflexivity.
Qed.

(** Ticks with no frame in between all see the same attention state. *)
Lemma run_ticks (n : nat) :
  forall s, isRunning s = true ->
    run (repeat IntervalTick n) s
    = Some (ticksUnder (repeat (attention s) n) s).
Proof.
  induction n as [|n IH]; intros s H; [reflexivity|].
  cbn [repeat run]. rewrite (fire_tick s H).
  rewrite IH by (destruct (tick_frame s) as (_ & _ & E & _); congruence).
  cbn [ticksUnder fold_left]. rewrite tickUnder_own_attention, attention_tick.
  reflexivity.
Qed.

(** C5. On every tick while running: above the final second,
    secondsLeft decreases by exactly 1 and the phase is unchanged; at
    the final second the phase flips and secondsLeft is reloaded to the
    new phase's configured duration.  The flip changes nothing besides
    phase and secondsLeft: HP, focusSec and distractSec get the tick's
    ordinary score update, and with the two clock fields put back the
    state is the one the score update alone gives.  From Work with
    secondsLeft = 1500 and breakMinutes = 5, after exactly 1500 ticks the
    phase is Break with secondsLeft = 300. *)
Theorem tick_countdown_and_flip (s : State) :
  isRunning s = true ->
  exists s', fire IntervalTick s = Some s'
    /\ (1 < secondsLeft s ->
        secondsLeft s' = secondsLeft s - 1 /\ phase s' = phase s)
    /\ (secondsLeft s <= 1 ->
        phase s' = flip (phase s)
        /\ secondsLeft s' = phaseSeconds (flip (phase s)) s)
    /\ (hp s' = hp (scoreEngine s)
        /\ focusSec s' = focusSec (scoreEngine s)
        /\ distractSec s' = distractSec (scoreEngine s))
    /\ setSecondsLeft (secondsLeft s) (setIsOnBreak (isOnBreak s) s') = scoreEngine s
    /\ (phase s = Work -> secondsLeft s = 1500 -> breakMinutes s = 5 ->
        (forall signals, List.length signals = 1500%nat ->
           phase (ticksUnder signals s) = Break
           /\ secondsLeft (ticksUnder signals s) = 300)
        /\ exists s'', run (repeat IntervalTick 1500) s = Some s''
             /\ phase s'' = Break /\ secondsLeft s'' = 300).
Proof.
  intros Hrun. exists (tick s). split; [apply fire_tick, Hrun|].
  destruct (tick_clock s) as (Es & Eb).
  repeat apply conj.
  - intros H. apply Z.ltb_lt in H. unfold phase. rewrite Es, Eb.
    unfold intervalClock. rewrite H. destruct s; split; reflexivity.
  - intros H. apply Z.ltb_ge in H. unfold phase at 1. rewrite Es, Eb.
    unfold intervalClock. rewrite H. unfold phase, flip, phaseSeconds.
    destruct s as [? ? ? [|] ? ? ? ? ? ? ? ? ? ? ? ?]; split; reflexivity.
  - apply tick_score.
  - apply tick_score.
  - apply tick_score.
  - apply tick_restore_clock.
  - intros Hw Hs Hb. split.
    + intros signals L.
      destruct (ticksUnder_phase signals s) as [P S]; [lia | lia |].
      rewrite P, S. unfold phaseSeconds. rewrite Hw, Hb. split; reflexivity.
    + rewrite (run_ticks 1500 s Hrun). eexists. split; [reflexivity|].
      destruct (ticksUnder_phase (repeat (attention s) 1500) s) as [P S];
        [lia | rewrite repeat_length; lia |].
      rewrite P, S. unfold phaseSeconds. rewrite Hw, Hb. split; reflexivity.
Qed.

Lemma tick_countdown_and_flip_witness :
  isRunning justStarted = true
  /\ phase justStarted = Work
  /\ secondsLeft justStarted = 1500
  /\ breakMinutes justStarted = 5
  /\ exists s'', run (repeat IntervalTick 1500) justStarted = Some s''
       /\ phase s'' = Break /\ secondsLeft s'' = 300.
Proof.
  repeat (split; [reflexivity|]).
  destruct (tick_countdown_and_flip justStarted eq_refl)
    as (s' & _ & _ & _ & _ & _ & H).
  destruct (H eq_refl eq_refl eq_refl) as [_ R]. exact R.
Defined.

(** * Pause, reset and save *)

(** C1 (the code departs from the claim). [pause()] stops the clock and
    leaves the phase, HP, focusSec and distractSec unchanged, but
    secondsLeft is not preserved: the render that follows the pause runs
    the reload effect, whose dependencies include [isRunning], and the
    countdown is reloaded to the full configured duration of the phase. *)
Theorem pause_reloads_countdown (s : State) :
  isRunning s = true ->
  exists s', fire ClickPause s = Some s'
    /\ isRunning s' = false
    /\ phase s' = phase s
    /\ hp s' = hp s
    /\ focusSec s' = focusSec s
    /\ distractSec s' = distractSec s
    /\ secondsLeft s' = phaseSeconds (phase s) s.
Proof.
  intros H. eexists. split; [reflexivity|].
  unfold render, pauseTimer, workReloadEffect, breakReloadEffect, phase, phaseSeconds.
  destruct s as [? ? r [|] ? ? ? ? ? ? ? ? ? ? ? ?]; cbn in H; subst r; cbn;
    rewrite ?Z.eqb_refl; cbn; repeat apply conj; reflexivity.
Qed.

(** One tick into the first work phase the countdown reads 1499; after
    the pause it reads 1500. *)
Lemma pause_reloads_countdown_witness :
  run [ClickStart (startIso exampleClock); IntervalTick] (mount []) = Some oneTickIn
  /\ isRunning oneTickIn = true
  /\ secondsLeft oneTickIn = 1499
  /\ exists s', fire ClickPause oneTickIn = Some s' /\ secondsLeft s' = 1500.
Proof.
  repeat (split; [reflexivity|]).
  destruct (pause_reloads_countdown oneTickIn eq_refl)
    as (s' & F & _ & _ & _ & _ & _ & S).
  exists s'. split; [exact F | exact S].
Defined.

(** C8. After [reset()], in whatever state: focusSec = 0, distractSec = 0,
    HP = 100, phase = Work, secondsLeft = workMinutes * 60, isRunning =
    false, the open-session marker is cleared, and the session log, in
    memory and persisted, is unchanged: no entry is produced. *)
Theorem reset_discards_session (s : State) :
  exists s', fire ClickReset s = Some s'
    /\ focusSec s' = 0
    /\ distractSec s' = 0
    /\ hp s' = 100%float
    /\ phase s' = Work
    /\ secondsLeft s' = workMinutes s' * 60
    /\ workMinutes s' = workMinutes s
    /\ isRunning s' = false
    /\ sessionStartRef s' = None
    /\ sessions s' = sessions s
    /\ persisted s' = persisted s.
Proof.
  eexists. split; [reflexivity|].
  unfold render, resetTimer, workReloadEffect, breakReloadEffect, phase.
  destruct s as [? ? [|] [|] ? ? ? ? ? ? ? ? ? ? ? ?]; cbn;
    rewrite ?Z.eqb_refl; cbn; repeat apply conj; reflexivity.
Qed.

(** ** Saving *)

Lemma save_fields (c : Clock) (s : State) :
  let s' := render (stopAndSave c) s in
  sessions s' = slice0 300 (Saved (sessionLog c s) :: sessions s)
  /\ persisted s' = Some (sessions s').
Proof.
  unfold render, stopAndSave, workReloadEffect, breakReloadEffect.
  generalize (sessionLog c s). intros log.
  destruct s as [? ? [|] [|] ? ? ? ? ? ? ? ? ? ? ? ?]; cbn -[slice0];
    rewrite ?Z.eqb_refl; cbn -[slice0]; split; reflexivity.
Qed.

Lemma slice0_cons_length {A : Type} (x : A) (l : list A) :
  List.length (slice0 300 (x :: l)) = Nat.min (List.length l + 1) 300.
Proof. unfold slice0. rewrite length_firstn. cbn [List.length]. lia. Qed.

Lemma slice0_cons_full {A : Type} (x : A) (l : list A) :
  List.length l = 300%nat -> slice0 300 (x :: l) = x :: removelast l.
Proof.
  intros H. unfold slice0. change 300%nat with (S 299) at 1.
  rewrite firstn_cons, removelast_firstn_len, H. reflexivity.
Qed.

Lemma slice0_cons_room {A : Type} (x : A) (l : list A) :
  (List.length l < 300)%nat -> slice0 300 (x :: l) = x :: l.
Proof.
  intros H. unfold slice0. apply firstn_all2. cbn [List.length]. lia.
Qed.

Lemma render_keeps_log (handler : State -> State) (s : State) :
  sessions (render handler s) = sessions (handler s)
  /\ persisted (render handler s) = persisted (handler s).
Proof. rewrite render_only_reloads. destruct (handler s); split; reflexivity. Qed.

Lemma startTimer_keeps_log (now : string) (s : State) :
  sessions (startTimer now s) = sessions s
  /\ persisted (startTimer now s) = persisted s.
Proof.
  destruct s as [? ? r ? ? ? ? ? ? ? ? ? ? ? [[|? ?]|] ?]; destruct r; split; reflexivity.
Qed.

Lemma loop_keeps_log (ts : float) (ready : bool) (d : Detection) (s : State) :
  sessions (loop ts ready d s) = sessions s
  /\ persisted (loop ts ready d s) = persisted s.
Proof.
  destruct s; unfold loop; cbn.
  repeat match goal with
         | |- context [if ?b then _ else _] => destruct b; cbn
         | |- context [match ?x with Faces _ => _ | Throws => _ end] => destruct x; cbn
         end; split; reflexivity.
Qed.

Lemma fire_persistedCapped (e : Event) (s s' : State) :
  fire e s = Some s' -> persistedCapped s -> persistedCapped s'.
Proof.
  intros F H.
  assert (K : forall handler, sessions (handler s) = sessions s ->
                persisted (handler s) = persisted s ->
                persistedCapped (render handler s)).
  { intros handler E1 E2 l.
    destruct (render_keeps_log handler s) as [-> ->]. rewrite E1, E2. apply H. }
  destruct e; cbn in F.
  - destruct now; [discriminate|]. injection F as <-.
    apply K; apply startTimer_keeps_log.
  - injection F as <-. apply K; destruct s; reflexivity.
  - injection F as <-. apply K; destruct s; reflexivity.
  - injection F as <-. intros l P.
    destruct (save_fields c s) as [E1 E2]. rewrite E2 in P. injection P as <-.
    split; [reflexivity|]. rewrite E1, slice0_cons_length. lia.
  - destruct (isRunning s); [|discriminate]. injection F as <-.
    destruct (tick_frame s) as (_ & _ & _ & _ & E1 & E2 & _). apply K; assumption.
  - injection F as <-. apply K; apply loop_keeps_log.
  - injection F as <-. apply K; destruct s; reflexivity.
  - injection F as <-. apply K; destruct s; reflexivity.
  - injection F as <-. apply K; destruct s; reflexivity.
Qed.

Lemma run_persistedCapped (events : list Event) :
  forall s s', run events s = Some s' -> persistedCapped s -> persistedCapped s'.
Proof.
  induction events as [|e rest IH]; cbn; intros s s' R H.
  - injection R as <-. exact H.
  - destruct (fire e s) as [s1|] eqn:F; [|discriminate].
    eapply IH; eauto using fire_persistedCapped.
Qed.

(** C7. A save on a log of length n leaves a persisted log of length
    min(n + 1, 300), with the new entry at its front; when n = 300 the
    oldest entry (the last of the newest-first sequence) is evicted.
    Along every run, what the component has persisted never exceeds 300
    entries. *)
Theorem save_caps_log :
  (forall (s : State) (c : Clock),
     exists s', fire (ClickSave c) s = Some s'
       /\ persisted s' = Some (sessions s')
       /\ List.length (sessions s')
          = Nat.min (List.length (sessions s) + 1) 300
       /\ (List.length (sessions s') <= 300)%nat
       /\ hd_error (sessions s') = Some (Saved (sessionLog c s))
       /\ (List.length (sessions s) = 300%nat ->
           sessions s' = Saved (sessionLog c s) :: removelast (sessions s))
       /\ ((List.length (sessions s) < 300)%nat ->
           sessions s' = Saved (sessionLog c s) :: sessions s))
  /\ (forall loaded events s l,
        run events (mount loaded) = Some s ->
        persisted s = Some l ->
        l = sessions s /\ (List.length l <= 300)%nat).
Proof.
  split.
  - intros s c. eexists. split; [reflexivity|].
    destruct (save_fields c s) as [E1 E2]. rewrite E2, E1.
    repeat apply conj.
    + reflexivity.
    + apply slice0_cons_length.
    + rewrite slice0_cons_length. lia.
    + reflexivity.
    + apply slice0_cons_full.
    + apply slice0_cons_room.
  - intros loaded events s l R. apply (run_persistedCapped events _ _ R).
    intros l0 P. discriminate P.
Qed.

Lemma save_caps_log_witness :
  let s := setSessions fullLog oneTickIn in
  List.length (sessions s) = 300%nat
  /\ exists s', fire (ClickSave exampleClock) s = Some s'
       /\ List.length (sessions s') = 300%nat
       /\ sessions s' = Saved (sessionLog exampleClock s) :: removelast (sessions s).
Proof.
  intros s. split; [reflexivity|].
  destruct save_caps_log as [H _].
  destruct (H s exampleClock) as (s' & F & _ & L & _ & _ & E & _).
  exists s'. split; [exact F|]. split; [exact L | apply E; reflexivity].
Defined.

(** ** The session ledger *)

Lemma consistent_render (handler : State -> State) (s : State) (g : Ledger) :
  consistent (handler s) g -> consistent (render handler s) g.
Proof. rewrite render_only_reloads. destruct (handler s); exact (fun H => H). Qed.

Lemma consistent_mount (loaded : list JSON.value) : consistent (mount loaded) ledger0.
Proof. repeat apply conj; try reflexivity. discriminate. Qed.

Lemma consistent_tick (s : State) (g : Ledger) :
  isRunning s = true ->
  consistent s g ->
  consistent (tick s) {| ticks := ticks g + 1; openHp := openHp g |}.
Proof.
  intros Hrun (H1 & H2 & H3 & H4 & H5).
  destruct (tick_score s) as (_ & Ef & Ed).
  destruct (tick_frame s) as (_ & _ & Er & _ & _ & _ & Es & Eh).
  pose proof (counters_scoreEngine s) as Hc.
  unfold consistent. rewrite Ef, Ed, Er, Es, Eh. cbn [ticks openHp].
  repeat apply conj; auto.
  - destruct (attention s); destruct Hc as [-> ->]; lia.
  - intros N. rewrite (H2 Hrun) in N. discriminate.
Qed.

Lemma consistent_loop (ts : float) (ready : bool) (d : Detection) (s : State) (g : Ledger) :
  consistent s g -> consistent (loop ts ready d s) g.
Proof.
  destruct s; unfold loop; cbn.
  repeat match goal with
         | |- context [if ?b then _ else _] => destruct b; cbn
         | |- context [match ?x with Faces _ => _ | Throws => _ end] => destruct x; cbn
         end; exact (fun H => H).
Qed.

Lemma consistent_startTimer (a : ascii) (now : string) (s : State) (g : Ledger) :
  consistent s g ->
  consistent (startTimer (String a now) s) (record (ClickStart (String a now)) s g).
Proof.
  intros (H1 & H2 & H3 & H4 & H5). unfold consistent, record, startTimer in *.
  rewrite H3.
  destruct s as [? ? r ? ? ? ? ? ? ? ? ? ? ? [[|? ?]|] ?]; destruct r; cbn in *;
    repeat apply conj; auto; try congruence;
    try (specialize (H2 eq_refl); discriminate);
    try (rewrite H4 by reflexivity; reflexivity).
Qed.

Lemma fire_consistent (e : Event) (s s' : State) (g : Ledger) :
  fire e s = Some s' -> consistent s g -> consistent s' (record e s g).
Proof.
  intros F H. destruct e; cbn in F.
  - destruct now; [discriminate|]. injection F as <-.
    apply consistent_render, consistent_startTimer, H.
  - injection F as <-. apply consistent_render.
    destruct H as (H1 & H2 & H3 & H4 & H5).
    destruct s; cbn in *; repeat apply conj; auto; try discriminate.
  - injection F as <-. apply consistent_render.
    destruct H as (H1 & H2 & H3 & H4 & H5).
    destruct s; cbn in *; repeat apply conj; auto; try discriminate.
  - injection F as <-. apply consistent_render.
    destruct H as (H1 & H2 & H3 & H4 & H5).
    destruct s; cbn in *; repeat apply conj; auto; try discriminate.
  - destruct (isRunning s) eqn:R; [|discriminate]. injection F as <-.
    apply consistent_render, consistent_tick; assumption.
  - injection F as <-. apply consistent_render, consistent_loop, H.
  - injection F as <-. apply consistent_render. destruct s; exact H.
  - injection F as <-. apply consistent_render. destruct s; exact H.
  - injection F as <-. apply consistent_render. destruct s; exact H.
Qed.

Lemma track_consistent (events : list Event) :
  forall s g s' g',
    track events s g = Some (s', g') -> consistent s g -> consistent s' g'.
Proof.
  induction events as [|e rest IH]; cbn; intros s g s' g' T H.
  - injection T as <- <-. exact H.
  - destruct (fire e s) as [s1|] eqn:F; [|discriminate].
    eapply IH; eauto using fire_consistent.
Qed.

(** The ledger only observes: it follows every run. *)
Lemma track_run (events : list Event) :
  forall s g,
    match run events s with
    | Some s' => exists g', track events s g = Some (s', g')
    | None => track events s g = None
    end.
Proof.
  induction events as [|e rest IH]; cbn; intros s g.
  - eauto.
  - destruct (fire e s) as [s1|]; [apply IH | reflexivity].
Qed.

Lemma save_like_reset (c : Clock) (s : State) :
  sameButLog (render (stopAndSave c) s) (render resetTimer s).
Proof.
  unfold sameButLog, render, stopAndSave, resetTimer, workReloadEffect, breakReloadEffect.
  generalize (slice0 300 (Saved (sessionLog c s) :: sessions s)). intros next.
  destruct s as [? ? [|] [|] ? ? ? ? ? ? ? ? ? ? ? ?]; cbn;
    rewrite ?Z.eqb_refl; cbn; reflexivity.
Qed.

(** C6. In every reachable state, [save()] produces a SessionLog whose
    durationSec is focusSec + distractSec, which is the number of ticks
    processed since the session was opened (or since the last save or
    reset); its hpEnd is the HP at save time and its hpStart the HP
    noted when the session was first started.  The entry is put at the
    front of the log, the log is cut to 300 entries and persisted, and
    the rest of the state is then what [reset()] would leave. *)
Theorem save_records_session
    (loaded : list JSON.value) (events : list Event) (s : State) (g : Ledger) (c : Clock) :
  track events (mount loaded) ledger0 = Some (s, g) ->
  exists s', fire (ClickSave c) s = Some s'
    /\ (let log := sessionLog c s in
        SessionLog.durationSec log = SessionLog.focusSec log + SessionLog.distractSec log
        /\ SessionLog.focusSec log = focusSec s
        /\ SessionLog.distractSec log = distractSec s
        /\ SessionLog.durationSec log = ticks g
        /\ SessionLog.hpEnd log = hp s
        /\ (forall h, openHp g = Some h -> SessionLog.hpStart log = h)
        /\ sessions s' = slice0 300 (Saved log :: sessions s)
        /\ persisted s' = Some (sessions s'))
    /\ exists r, fire ClickReset s = Some r /\ sameButLog s' r.
Proof.
  intros T.
  destruct (track_consistent events _ _ _ _ T (consistent_mount loaded))
    as (H1 & H2 & H3 & H4 & H5).
  eexists. split; [reflexivity|]. split.
  - destruct (save_fields c s) as [E1 E2].
    repeat apply conj; try reflexivity; try assumption.
    intros h O. rewrite H3 in O. cbn.
    destruct (isSet (sessionStartRef s)); congruence.
  - eexists. split; [reflexivity|]. apply save_like_reset.
Qed.

Lemma save_records_session_witness :
  exists s g,
    track exampleRun (mount []) ledger0 = Some (s, g)
    /\ ticks g = 3
    /\ openHp g = Some 100%float
    /\ exists s', fire (ClickSave exampleClock) s = Some s'
         /\ SessionLog.durationSec (sessionLog exampleClock s) = 3
         /\ SessionLog.hpStart (sessionLog exampleClock s) = 100%float.
Proof.
  destruct (track exampleRun (mount []) ledger0) as [[s g]|] eqn:T;
    [|vm_compute in T; discriminate T].
  exists s, g. split; [reflexivity|].
  destruct (save_records_session [] exampleRun s g exampleClock T)
    as (s' & F & (_ & _ & _ & D & _ & O & _) & _).
  assert (G : ticks g = 3 /\ openHp g = Some 100%float)
    by (vm_compute in T; injection T as _ <-; split; reflexivity).
  destruct G as [G1 G2].
  split; [exact G1|]. split; [exact G2|].
  exists s'. split; [exact F|]. split; [rewrite D; exact G1 | apply O, G2].
Defined.

(** * The attention debouncer *)

Lemma render_loop (ts : float) (ready : bool) (d : Detection) (s : State) :
  render (loop ts ready d) s = loop ts ready d s.
Proof.
  unfold render, workReloadEffect, breakReloadEffect.
  assert (E : workMinutes (loop ts ready d s) = workMinutes s
              /\ breakMinutes (loop ts ready d s) = breakMinutes s
              /\ isRunning (loop ts ready d s) = isRunning s
              /\ isOnBreak (loop ts ready d s) = isOnBreak s).
  { destruct s; unfold loop; cbn.
    repeat match goal with
           | |- context [if ?b then _ else _] => destruct b; cbn
           | |- context [match ?x with Faces _ => _ | Throws => _ end] => destruct x; cbn
           end; repeat apply conj; reflexivity. }
  destruct E as (-> & -> & -> & ->).
  rewrite !Z.eqb_refl, !eqb_reflx. reflexivity.
Qed.

Lemma loop_sample (s : State) (ts : float) (count : nat) :
  (200 <? ts - lastInferTs s)%float = true ->
  debouncerOf (loop ts true (Faces count) s)
  = debounce (0 <? count)%nat (ts - lastInferTs s)%float (debouncerOf s)
  /\ lastInferTs (loop ts true (Faces count) s) = ts.
Proof.
  intros Hgap.
  unfold debouncerOf, debounce, attention, loop, distractGraceMs.
  destruct s as [? ? ? ? ? ? fn st ? ? ? ? li ? ? ?]; cbn in *.
  rewrite Hgap. destruct count as [|n]; cbn; [|split; reflexivity].
  destruct (1500 <? st + (ts - li))%float; split; reflexivity.
Qed.

Lemma frames_debounce (samples : list (float * nat)) :
  forall s, spaced (gaps (lastInferTs s) samples) = true ->
    debouncerOf (frames samples s)
    = debounceAll (gaps (lastInferTs s) samples) (debouncerOf s).
Proof.
  induction samples as [|[ts count] rest IH]; intros s H; [reflexivity|].
  cbn in H. apply andb_prop in H. destruct H as [H1 H2].
  destruct (loop_sample s ts count H1) as [E L].
  cbn [frames gaps debounceAll]. rewrite <- E.
  specialize (IH (loop ts true (Faces count) s)). rewrite L in IH.
  apply IH. exact H2.
Qed.

(** C4. For every sequence of presence samples with their elapsed-time
    gaps, the loop is the specification's debouncer: a sample with
    present = true sets the streak to 0 and the attention state to
    Focused at once; a sample with present = false adds the
    milliseconds elapsed since the previous sample to the streak, and
    sets the state to Distracted exactly when the accumulated streak
    exceeds 1500 ms, leaving the previous state unchanged otherwise.  So
    one absent sample that does not take the streak over the threshold,
    followed by a present one, never yields Distracted. *)
Theorem loop_debounces :
  (forall s samples,
     spaced (gaps (lastInferTs s) samples) = true ->
     debouncerOf (frames samples s)
     = debounceAll (gaps (lastInferTs s) samples) (debouncerOf s))
  /\ (forall s ts count,
        (200 <? ts - lastInferTs s)%float = true ->
        let elapsed := (ts - lastInferTs s)%float in
        let s' := loop ts true (Faces count) s in
        fire (AnimationFrame ts true (Faces count)) s = Some s'
        /\ ((0 < count)%nat ->
            distractionStreakMs s' = 0%float /\ attention s' = Focused)
        /\ (count = 0%nat ->
            distractionStreakMs s' = (distractionStreakMs s + elapsed)%float
            /\ ((1500 <? distractionStreakMs s')%float = true ->
                attention s' = Distracted)
            /\ ((1500 <? distractionStreakMs s')%float = false ->
                attention s' = attention s))
        /\ (count = 0%nat ->
            attention s <> Distracted ->
            (1500 <? distractionStreakMs s + elapsed)%float = false ->
            forall ts2 count2,
              (200 <? ts2 - ts)%float = true -> (0 < count2)%nat ->
              let s'' := loop ts2 true (Faces count2) s' in
              attention s' <> Distracted
              /\ attention s'' = Focused
              /\ distractionStreakMs s'' = 0%float)).
Proof.
  split; [intros s samples; apply frames_debounce|].
  intros s ts count Hgap elapsed s'. subst elapsed s'.
  split; [cbn; rewrite render_loop; reflexivity|].
  unfold attention, loop, distractGraceMs.
  destruct s as [? ? ? ? ? ? fn st ? ? ? ? li ? ? ?]; cbn in *.
  rewrite Hgap. destruct count as [|n]; cbn.
  - repeat apply conj.
    + intros H. inversion H.
    + intros _. destruct (1500 <? st + (ts - li))%float eqn:E; cbn;
        repeat apply conj; try reflexivity; intros; congruence.
    + intros _ A E ts2 count2 G2 P. rewrite E. cbn. rewrite G2.
      destruct count2 as [|m]; [inversion P|]. cbn.
      repeat apply conj; try reflexivity. exact A.
  - repeat apply conj.
    + intros _. split; reflexivity.
    + intros H. discriminate H.
    + intros H. discriminate H.
Qed.

(** An absent sample 300 ms after a present one, then a present one. *)
Lemma loop_debounces_witness :
  let s := loop 1000 true (Faces 1) justStarted in
  (200 <? 1300 - lastInferTs s)%float = true
  /\ spaced (gaps (lastInferTs s) [(1300%float, 0%nat); (1600%float, 1%nat)]) = true
  /\ attention s = Focused
  /\ attention (loop 1300 true (Faces 0) s) = Focused
  /\ distractionStreakMs (loop 1300 true (Faces 0) s) = 300%float
  /\ attention (loop 1600 true (Faces 1) (loop 1300 true (Faces 0) s)) = Focused
  /\ debouncerOf (frames [(1300%float, 0%nat); (1600%float, 1%nat)] s)
     = {| streak := 0; signal := Focused |}.
Proof.
  intros s.
  destruct loop_debounces as [R P].
  destruct (P s 1300%float 0%nat eq_refl) as (_ & _ & A & B).
  destruct (A eq_refl) as (A1 & _ & A3).
  destruct (B eq_refl ltac:(discriminate) eq_refl 1600%float 1%nat eq_refl (le_n 1))
    as (_ & B2 & _).
  split; [reflexivity|]. split; [reflexivity|]. split; [reflexivity|].
  split; [rewrite (A3 eq_refl); reflexivity|].
  split; [rewrite A1; reflexivity|].
  split; [exact B2|].
  rewrite (R s [(1300%float, 0%nat); (1600%float, 1%nat)] eq_refl). reflexivity.
Defined.

(** * Loading the session log *)

(** C9 (as amended). Loading never fails, and returns the empty log
    when the persisted value is absent, empty, not JSON, or JSON of a
    non-array.  A JSON array is returned as parsed, whatever its
    elements: they are not checked to be session logs. *)
Theorem loadSessions_total (JSON_parse : string -> option JSON.value) (raw : option string) :
  (raw = None -> loadSessions JSON_parse raw = [])
  /\ (raw = Some EmptyString -> loadSessions JSON_parse raw = [])
  /\ (forall text, raw = Some text -> JSON_parse text = None ->
        loadSessions JSON_parse raw = [])
  /\ (forall text v, raw = Some text -> JSON_parse text = Some v ->
        (forall arr, v <> JSON.Array arr) ->
        loadSessions JSON_parse raw = [])
  /\ (forall text arr, raw = Some text -> text <> EmptyString ->
        JSON_parse text = Some (JSON.Array arr) ->
        loadSessions JSON_parse raw = arr).
Proof.
  repeat apply conj.
  - intros ->. reflexivity.
  - intros ->. reflexivity.
  - intros text -> P. destruct text; cbn; [reflexivity|]. cbn in P. rewrite P. reflexivity.
  - intros text v -> P N. destruct text; cbn; [reflexivity|]. cbn in P. rewrite P.
    destruct v; try reflexivity. destruct (N items eq_refl).
  - intros text arr -> N P. destruct text; [destruct (N eq_refl)|].
    cbn. cbn in P. rewrite P. reflexivity.
Qed.

Lemma loadSessions_total_witness :
  loadSessions JSON.parse None = []
  /\ loadSessions JSON.parse (Some "not json"%string) = []
  /\ loadSessions JSON.parse (Some "{}"%string) = []
  /\ loadSessions JSON.parse (Some "[null, 7]"%string) = [JSON.Null; JSON.Number 7 0].
Proof.
  destruct (loadSessions_total JSON.parse None) as (A & _).
  destruct (loadSessions_total JSON.parse (Some "not json"%string)) as (_ & _ & B & _).
  destruct (loadSessions_total JSON.parse (Some "{}"%string)) as (_ & _ & _ & C & _).
  destruct (loadSessions_total JSON.parse (Some "[null, 7]"%string)) as (_ & _ & _ & _ & D).
  split; [apply A; reflexivity|].
  split; [apply (B "not json"%string); reflexivity|].
  split; [apply (C "{}"%string (JSON.Object [])); [reflexivity | reflexivity | discriminate]|].
  apply (D "[null, 7]"%string); [reflexivity | discriminate | reflexivity].
Defined.

(** A persisted array whose element is no session log is loaded as it is. *)
Lemma loadSessions_keeps_malformed_array :
  JSON.parse "[1]" = Some (JSON.Array [JSON.Number 1 0])
  /\ loadSessions JSON.parse (Some "[1]"%string) = [JSON.Number 1 0]
  /\ loadSessions JSON.parse (Some "[1]"%string) <> []
  /\ sessions (mount (loadSessions JSON.parse (Some "[1]"%string)))
     = [Loaded (JSON.Number 1 0)].
Proof.
  repeat apply conj; try reflexivity. discriminate.
Qed.


(** * What every reachable state satisfies *)

Lemma Forall_slice0 {A : Type} (P : A -> Prop) (n : nat) (l : list A) :
  Forall P l -> Forall P (slice0 n l).
Proof.
  unfold slice0. revert l. induction n as [|n IH]; intros l H; [constructor|].
  destruct H; cbn; constructor; auto.
Qed.

Lemma sound_mount (loaded : list JSON.value) : sound (mount loaded).
Proof.
  unfold sound. cbn. repeat apply conj; try reflexivity; try lia; try discriminate.
  - intros _. repeat apply conj; reflexivity.
  - induction loaded; constructor; cbn; auto.
Qed.

(** Unfolds a render and decides every test its effects make. *)
Ltac sound_clock :=
  unfold render, workReloadEffect, breakReloadEffect, phase, phaseSeconds in *;
  cbn in *;
  repeat match goal with
         | |- context [Z.eqb ?a ?b] => destruct (Z.eqb_spec a b); cbn in *
         end.

Ltac sound_close :=
  repeat apply conj; auto; try lia; try discriminate; try congruence.

Lemma sound_pause (s : State) : sound s -> sound (render pauseTimer s).
Proof.
  intros (Hw & Hb & Hs & Hf & Hfs & Hds & Hh & Hr & Hrun & Hidle & Hlog).
  unfold sound, pauseTimer.
  destruct s as [w b r ob sl h fn st fs ds hs m li ss sr p].
  destruct r, ob; sound_clock; sound_close.
Qed.

Lemma sound_reset (s : State) : sound s -> sound (render resetTimer s).
Proof.
  intros (Hw & Hb & Hs & Hf & Hfs & Hds & Hh & Hr & Hrun & Hidle & Hlog).
  unfold sound, resetTimer.
  destruct s as [w b r ob sl h fn st fs ds hs m li ss sr p].
  destruct r, ob; sound_clock; sound_close.
Qed.

Lemma sound_save (c : Clock) (s : State) : sound s -> sound (render (stopAndSave c) s).
Proof.
  intros (Hw & Hb & Hs & Hf & Hfs & Hds & Hh & Hr & Hrun & Hidle & Hlog).
  assert (Hnew : entryOk (Saved (sessionLog c s)))
    by (cbn; repeat apply conj; auto; lia).
  unfold sound, render, stopAndSave. cbv beta zeta.
  revert Hnew. generalize (sessionLog c s). intros log Hnew.
  destruct s as [w b r ob sl h fn st fs ds hs m li ss sr p].
  unfold render, workReloadEffect, breakReloadEffect, phase, phaseSeconds in *.
  destruct r, ob; cbn -[slice0] in *; rewrite ?Z.eqb_refl; cbn -[slice0];
    repeat apply conj; auto; try lia; try discriminate;
    apply Forall_slice0; constructor; first [exact Hnew | exact Hlog].
Qed.

Lemma sound_changeWork (v : Z) (s : State) :
  sound s -> sound (render (changeWorkMinutes v) s).
Proof.
  intros (Hw & Hb & Hs & Hf & Hfs & Hds & Hh & Hr & Hrun & Hidle & Hlog).
  unfold sound, changeWorkMinutes.
  destruct s as [w b r ob sl h fn st fs ds hs m li ss sr p].
  destruct r, ob; sound_clock; sound_close.
Qed.

Lemma sound_changeBreak (v : Z) (s : State) :
  sound s -> sound (render (changeBreakMinutes v) s).
Proof.
  intros (Hw & Hb & Hs & Hf & Hfs & Hds & Hh & Hr & Hrun & Hidle & Hlog).
  unfold sound, changeBreakMinutes.
  destruct s as [w b r ob sl h fn st fs ds hs m li ss sr p].
  destruct r, ob; sound_clock; sound_close.
Qed.

Lemma sound_setMode (m : Mode) (s : State) : sound s -> sound (render (setMode m) s).
Proof.
  intros (Hw & Hb & Hs & Hf & Hfs & Hds & Hh & Hr & Hrun & Hidle & Hlog).
  unfold sound.
  destruct s as [w b r ob sl h fn st fs ds hs m0 li ss sr p].
  destruct r, ob; sound_clock; sound_close.
Qed.

Lemma sound_start (a : ascii) (now : string) (s : State) :
  sound s -> sound (render (startTimer (String a now)) s).
Proof.
  intros (Hw & Hb & Hs & Hf & Hfs & Hds & Hh & Hr & Hrun & Hidle & Hlog).
  unfold sound, startTimer.
  destruct s as [w b r ob sl h fn st fs ds hs m li ss [[|? ?]|] p];
    destruct r, ob; sound_clock; sound_close;
    try (destruct (Hidle eq_refl) as (? & ? & ? & ?); sound_close);
    try (specialize (Hrun eq_refl); discriminate).
Qed.

Lemma sound_loop (ts : float) (ready : bool) (d : Detection) (s : State) :
  sound s -> sound (render (loop ts ready d) s).
Proof.
  rewrite render_loop.
  destruct s; unfold loop; cbn.
  repeat match goal with
         | |- context [if ?b then _ else _] => destruct b; cbn
         | |- context [match ?x with Faces _ => _ | Throws => _ end] => destruct x; cbn
         end; exact (fun H => H).
Qed.

Lemma sound_tick (s : State) :
  isRunning s = true -> sound s -> sound (render tick s).
Proof.
  intros R (Hw & Hb & Hs & Hf & Hfs & Hds & Hh & Hr & Hrun & Hidle & Hlog).
  rewrite (render_tick s R).
  pose proof (tick_within s Hh) as Hh'.
  destruct (tick_frame s) as (Ew & Eb & Er & _ & Es & _ & Esr & Ehs).
  destruct (tick_score s) as (_ & Ef & Ed).
  pose proof (counters_scoreEngine s) as Hc.
  destruct (tickUnder_clock (attention s) s) as (Esl & Eob & _).
  rewrite tickUnder_own_attention in Esl, Eob.
  unfold sound, phase, phaseSeconds.
  rewrite Ew, Eb, Er, Ef, Ed, Es, Esr, Ehs, Esl, Eob, R, (Hrun R).
  unfold phaseSeconds, flip, phase.
  repeat apply conj; auto; try lia; try discriminate.
  - destruct (1 <? secondsLeft s) eqn:L; [apply Z.ltb_lt in L; lia|].
    destruct (isOnBreak s); lia.
  - destruct (1 <? secondsLeft s) eqn:L; [apply Z.ltb_lt in L; lia|].
    destruct (isOnBreak s); lia.
  - destruct (attention s); destruct Hc as [E1 E2]; rewrite ?E1, ?E2; lia.
  - destruct (attention s); destruct Hc as [E1 E2]; rewrite ?E1, ?E2; lia.
Qed.

Lemma fire_sound (e : Event) (s s' : State) :
  fire e s = Some s' -> sound s -> sound s'.
Proof.
  intros F H. destruct e; cbn in F.
  - destruct now; [discriminate|]. injection F as <-. apply sound_start, H.
  - injection F as <-. apply sound_pause, H.
  - injection F as <-. apply sound_reset, H.
  - injection F as <-. apply sound_save, H.
  - destruct (isRunning s) eqn:R; [|discriminate]. injection F as <-.
    apply sound_tick; assumption.
  - injection F as <-. apply sound_loop, H.
  - injection F as <-. apply sound_changeWork, H.
  - injection F as <-. apply sound_changeBreak, H.
  - injection F as <-. apply sound_setMode, H.
Qed.

Lemma run_sound (events : list Event) :
  forall s s', run events s = Some s' -> sound s -> sound s'.
Proof.
  induction events as [|e rest IH]; cbn; intros s s' R H.
  - injection R as <-. exact H.
  - destruct (fire e s) as [s1|] eqn:F; [|discriminate].
    eapply IH; eauto using fire_sound.
Qed.

Lemma reachable_sound (s : State) : reachable s -> sound s.
Proof.
  intros (loaded & events & R).
  exact (run_sound events _ _ R (sound_mount loaded)).
Qed.

Lemma reachable_mount (loaded : list JSON.value) : reachable (mount loaded).
Proof. exists loaded, []. reflexivity. Qed.

Lemma reachable_oneTickIn : reachable oneTickIn.
Proof.
  exists [], [ClickStart (startIso exampleClock); IntervalTick]. reflexivity.
Qed.

(** X1. In every reachable state the configured minutes are within the
    bounds of the two inputs: work 5..120, break 3..60. *)
Theorem reachable_minutes_bounded (s : State) :
  reachable s ->
  5 <= workMinutes s <= 120 /\ 3 <= breakMinutes s <= 60.
Proof.
  intros R. destruct (reachable_sound s R) as (Hw & Hb & _). split; assumption.
Qed.

Lemma reachable_minutes_bounded_witness :
  reachable oneTickIn
  /\ 5 <= workMinutes oneTickIn <= 120 /\ 3 <= breakMinutes oneTickIn <= 60.
Proof.
  split; [exact reachable_oneTickIn|].
  exact (reachable_minutes_bounded oneTickIn reachable_oneTickIn).
Defined.



(** X3. In every reachable state in which the clock is not running, the
    countdown reads the full configured duration of the current phase:
    a stopped clock never shows a partly elapsed phase. *)
Theorem stopped_clock_is_full (s : State) :
  reachable s ->
  isRunning s = false ->
  secondsLeft s = phaseSeconds (phase s) s.
Proof.
  intros R. destruct (reachable_sound s R) as (_ & _ & _ & Hf & _). exact Hf.
Qed.

Lemma stopped_clock_is_full_witness :
  let s := render pauseTimer oneTickIn in
  reachable s
  /\ isRunning s = false
  /\ phase s = Work
  /\ secondsLeft s = 1500.
Proof.
  intros s.
  assert (R : reachable s)
    by (exists [], [ClickStart (startIso exampleClock); IntervalTick; ClickPause];
        reflexivity).
  split; [exact R|]. split; [reflexivity|]. split; [reflexivity|].
  exact (stopped_clock_is_full s R eq_refl).
Defined.

(** X4. In every reachable state with no session open, the component
    is in its fresh state: not running, in the Work phase with the full
    work duration on the countdown, HP at 100 and both counters at 0. *)
Theorem no_session_is_fresh (s : State) :
  reachable s ->
  isSet (sessionStartRef s) = false ->
  isRunning s = false
  /\ phase s = Work
  /\ secondsLeft s = workMinutes s * 60
  /\ hp s = 100%float
  /\ focusSec s = 0
  /\ distractSec s = 0.
Proof.
  intros R N.
  destruct (reachable_sound s R) as (_ & _ & _ & Hf & _ & _ & _ & _ & Hrun & Hidle & _).
  destruct (Hidle N) as (Hob & Hh & Hfs & Hds).
  assert (Hr : isRunning s = false).
  { destruct (isRunning s); [|reflexivity].
    rewrite (Hrun eq_refl) in N. discriminate N. }
  specialize (Hf Hr). unfold phase in *. rewrite Hob in *.
  repeat apply conj; auto.
Qed.

Lemma no_session_is_fresh_witness :
  let s := mount [JSON.Null] in
  reachable s
  /\ isSet (sessionStartRef s) = false
  /\ isRunning s = false /\ hp s = 100%float /\ secondsLeft s = 1500.
Proof.
  intros s.
  destruct (no_session_is_fresh s (reachable_mount [JSON.Null]) eq_refl)
    as (A & _ & B & C & _).
  split; [exact (reachable_mount [JSON.Null])|].
  split; [reflexivity|]. split; [exact A|]. split; [exact C | exact B].
Defined.

(** X5. In every reachable state, every entry of the log that the
    component itself saved has durationSec = focusSec + distractSec with
    both counters non-negative, hpStart = 100, hpEnd in [0,100], and
    work and break minutes within their bounds. *)
Theorem saved_entries_well_formed (s : State) (log : SessionLog.t) :
  reachable s ->
  In (Saved log) (sessions s) ->
  SessionLog.durationSec log = SessionLog.focusSec log + SessionLog.distractSec log
  /\ 0 <= SessionLog.focusSec log
  /\ 0 <= SessionLog.distractSec log
  /\ SessionLog.hpStart log = 100%float
  /\ within 0 100 (SessionLog.hpEnd log) = true
  /\ 5 <= SessionLog.workMinutes log <= 120
  /\ 3 <= SessionLog.breakMinutes log <= 60.
Proof.
  intros R I.
  destruct (reachable_sound s R) as (_ & _ & _ & _ & _ & _ & _ & _ & _ & _ & Hlog).
  rewrite Forall_forall in Hlog. exact (Hlog _ I).
Qed.

Lemma saved_entries_well_formed_witness :
  let before := tick (tick oneTickIn) in
  let s := render (stopAndSave exampleClock) before in
  reachable s
  /\ In (Saved (sessionLog exampleClock before)) (sessions s)
  /\ SessionLog.durationSec (sessionLog exampleClock before) = 3
  /\ SessionLog.hpStart (sessionLog exampleClock before) = 100%float.
Proof.
  intros before s.
  assert (R : reachable s)
    by (exists [], (exampleRun ++ [ClickSave exampleClock]); reflexivity).
  assert (I : In (Saved (sessionLog exampleClock before)) (sessions s))
    by (left; reflexivity).
  destruct (saved_entries_well_formed s _ R I) as (_ & _ & _ & H & _).
  split; [exact R|]. split; [exact I|]. split; [reflexivity | exact H].
Defined.

(** X6. A save with no session open, in a reachable state, logs an
    empty session: startedAt is the time of the save, the duration and
    both counters are 0, and hpStart = hpEnd = 100. *)
Theorem save_without_session (s : State) (c : Clock) :
  reachable s ->
  isSet (sessionStartRef s) = false ->
  let log := sessionLog c s in
  SessionLog.startedAt log = startIso c
  /\ SessionLog.durationSec log = 0
  /\ SessionLog.focusSec log = 0
  /\ SessionLog.distractSec log = 0
  /\ SessionLog.hpStart log = 100%float
  /\ SessionLog.hpEnd log = 100%float.
Proof.
  intros R N.
  destruct (reachable_sound s R) as (_ & _ & _ & _ & _ & _ & _ & Hr & _ & Hidle & _).
  destruct (Hidle N) as (_ & Hh & Hfs & Hds).
  cbn. rewrite Hfs, Hds, Hh, Hr.
  repeat apply conj; try reflexivity.
  unfold orElse. destruct (sessionStartRef s) as [[|? ?]|]; try reflexivity.
  discriminate N.
Qed.

Lemma save_without_session_witness :
  reachable (mount [])
  /\ isSet (sessionStartRef (mount [])) = false
  /\ SessionLog.startedAt (sessionLog exampleClock (mount [])) = startIso exampleClock
  /\ SessionLog.durationSec (sessionLog exampleClock (mount [])) = 0.
Proof.
  destruct (save_without_session (mount []) exampleClock (reachable_mount []) eq_refl)
    as (A & B & _).
  split; [exact (reachable_mount [])|]. split; [reflexivity|].
  split; [exact A | exact B].
Defined.

(** * The session's start marker *)

Lemma sessionStartRef_render (handler : State -> State) (s : State) :
  sessionStartRef (render handler s) = sessionStartRef (handler s).
Proof. rewrite render_only_reloads. destruct (handler s); reflexivity. Qed.

Lemma fire_openStep (e : Event) (s s' : State) :
  fire e s = Some s' ->
  (isRunning s = true -> isSet (sessionStartRef s) = true) ->
  (isSet (sessionStartRef s) = false -> sessionStartRef s = None) ->
  sessionStartRef s' = openStep (sessionStartRef s) e
  /\ (isSet (sessionStartRef s') = false -> sessionStartRef s' = None).
Proof.
  intros F Hrun Hnone. destruct e; cbn in F.
  - destruct now as [|a now]; [discriminate|]. injection F as <-.
    rewrite sessionStartRef_render. unfold startTimer.
    destruct s as [? ? r ? ? ? ? ? ? ? ? ? ? ? sr ?]; cbn in *.
    destruct r; cbn.
    + specialize (Hrun eq_refl). destruct sr as [[|? ?]|]; try discriminate.
      split; [reflexivity | discriminate].
    + destruct sr as [[|? ?]|]; cbn.
      * specialize (Hnone eq_refl). discriminate.
      * split; [reflexivity | discriminate].
      * split; [reflexivity | discriminate].
  - injection F as <-. rewrite sessionStartRef_render.
    destruct s; cbn in *. split; [reflexivity | exact Hnone].
  - injection F as <-. rewrite sessionStartRef_render.
    destruct s; cbn. split; reflexivity.
  - injection F as <-. rewrite sessionStartRef_render.
    destruct s; cbn. split; reflexivity.
  - destruct (isRunning s); [|discriminate]. injection F as <-.
    rewrite sessionStartRef_render.
    destruct (tick_frame s) as (_ & _ & _ & _ & _ & _ & E & _). rewrite E.
    split; [reflexivity | exact Hnone].
  - injection F as <-. rewrite render_loop.
    assert (E : sessionStartRef (loop ts ready d s) = sessionStartRef s).
    { destruct s; unfold loop; cbn.
      repeat match goal with
             | |- context [if ?b then _ else _] => destruct b; cbn
             | |- context [match ?x with Faces _ => _ | Throws => _ end] =>
                 destruct x; cbn
             end; reflexivity. }
    rewrite E. split; [reflexivity | exact Hnone].
  - injection F as <-. rewrite sessionStartRef_render.
    destruct s; cbn in *. split; [reflexivity | exact Hnone].
  - injection F as <-. rewrite sessionStartRef_render.
    destruct s; cbn in *. split; [reflexivity | exact Hnone].
  - injection F as <-. rewrite sessionStartRef_render.
    destruct s; cbn in *. split; [reflexivity | exact Hnone].
Qed.

Lemma run_openStep (events : list Event) :
  forall s s',
    run events s = Some s' ->
    sound s ->
    (isSet (sessionStartRef s) = false -> sessionStartRef s = None) ->
    sessionStartRef s' = fold_left openStep events (sessionStartRef s)
    /\ (isSet (sessionStartRef s') = false -> sessionStartRef s' = None).
Proof.
  induction events as [|e rest IH]; cbn; intros s s' R H N.
  - injection R as <-. split; [reflexivity | exact N].
  - destruct (fire e s) as [s1|] eqn:F; [|discriminate].
    assert (Hrun : isRunning s = true -> isSet (sessionStartRef s) = true)
      by (destruct H as (_ & _ & _ & _ & _ & _ & _ & _ & Hrun & _); exact Hrun).
    destruct (fire_openStep e s s1 F Hrun N) as [E N1].
    rewrite <- E. apply IH; eauto using fire_sound.
Qed.

(** X7. After any run from a mount, the start marker is the time of the
    first press of Start since the last reset or save, however many
    pauses and restarts followed it, and an entry saved now carries that
    time as startedAt; with no such press, it carries the time of the
    save. *)
Theorem startedAt_is_first_start
    (loaded : list JSON.value) (events : list Event) (s : State) (c : Clock) :
  run events (mount loaded) = Some s ->
  sessionStartRef s = openedAt events
  /\ SessionLog.startedAt (sessionLog c s)
     = match openedAt events with Some t => t | None => startIso c end.
Proof.
  intros R.
  destruct (run_openStep events _ _ R (sound_mount loaded) (fun _ => eq_refl))
    as [E N].
  change (fold_left openStep events (sessionStartRef (mount loaded)))
    with (openedAt events) in E.
  split; [exact E|].
  cbn. rewrite <- E. unfold orElse.
  destruct (sessionStartRef s) as [[|? ?]|] eqn:Q; try reflexivity.
  specialize (N eq_refl). discriminate N.
Qed.

Lemma startedAt_is_first_start_witness :
  let events := [ClickStart "09:00"; IntervalTick; ClickPause;
                 ClickStart "09:05"; IntervalTick]%string in
  exists s, run events (mount []) = Some s
    /\ openedAt events = Some "09:00"%string
    /\ SessionLog.startedAt (sessionLog exampleClock s) = "09:00"%string.
Proof.
  intros events.
  destruct (run events (mount [])) as [s|] eqn:R; [|vm_compute in R; discriminate R].
  exists s. split; [reflexivity|]. split; [reflexivity|].
  destruct (startedAt_is_first_start [] events s exampleClock R) as [_ E].
  exact E.
Defined.

(** * The log over a run *)

Lemma fire_sessions (e : Event) (s s' : State) :
  fire e s = Some s' ->
  sessions s'
  = match e with
    | ClickSave c => slice0 300 (Saved (sessionLog c s) :: sessions s)
    | _ => sessions s
    end.
Proof.
  intros F. destruct e; cbn in F.
  - destruct now; [discriminate|]. injection F as <-.
    destruct (render_keeps_log (startTimer (String a now)) s) as [-> _].
    apply startTimer_keeps_log.
  - injection F as <-. destruct (render_keeps_log pauseTimer s) as [-> _].
    destruct s; reflexivity.
  - injection F as <-. destruct (render_keeps_log resetTimer s) as [-> _].
    destruct s; reflexivity.
  - injection F as <-. apply save_fields.
  - destruct (isRunning s); [|discriminate]. injection F as <-.
    destruct (render_keeps_log tick s) as [-> _].
    destruct (tick_frame s) as (_ & _ & _ & _ & E & _). exact E.
  - injection F as <-. destruct (render_keeps_log (loop ts ready d) s) as [-> _].
    apply loop_keeps_log.
  - injection F as <-. destruct (render_keeps_log (changeWorkMinutes v) s) as [-> _].
    destruct s; reflexivity.
  - injection F as <-. destruct (render_keeps_log (changeBreakMinutes v) s) as [-> _].
    destruct s; reflexivity.
  - injection F as <-. destruct (render_keeps_log (setMode m) s) as [-> _].
    destruct s; reflexivity.
Qed.

Lemma slice0_app_slice0 {A : Type} (n : nat) (a l : list A) :
  slice0 n (a ++ slice0 n l) = slice0 n (a ++ l).
Proof.
  unfold slice0. rewrite !firstn_app, firstn_firstn. f_equal. f_equal. lia.
Qed.

(** X8. Over any run the log only grows at its front and is only cut
    at its end: it is the entries saved during the run, newest first,
    followed by the log the run started with, cut to 300 entries if a
    save took place.  No entry is ever changed or reordered. *)
Theorem log_grows_at_front (events : list Event) :
  forall s s',
    run events s = Some s' ->
    sessions s'
    = match savedDuring events s with
      | [] => sessions s
      | newer => slice0 300 (newer ++ sessions s)
      end.
Proof.
  induction events as [|e rest IH]; cbn [run savedDuring]; intros s s' R.
  - injection R as <-. reflexivity.
  - destruct (fire e s) as [s1|] eqn:F; [|discriminate].
    rewrite (IH s1 s' R). pose proof (fire_sessions e s s1 F) as E.
    destruct e; rewrite E, ?app_nil_r; try reflexivity.
    destruct (savedDuring rest s1) as [|x newer]; [reflexivity|].
    rewrite slice0_app_slice0. cbn [app]. rewrite <- app_assoc. reflexivity.
Qed.

Lemma log_grows_at_front_witness :
  let events := [ClickStart (startIso exampleClock); IntervalTick;
                 ClickSave exampleClock; ClickSave exampleClock] in
  exists s', run events (mount [JSON.Null]) = Some s'
    /\ List.length (savedDuring events (mount [JSON.Null])) = 2%nat
    /\ sessions s'
       = slice0 300 (savedDuring events (mount [JSON.Null]) ++ [Loaded JSON.Null]).
Proof.
  intros events.
  destruct (run events (mount [JSON.Null])) as [s'|] eqn:R;
    [|vm_compute in R; discriminate R].
  exists s'. split; [reflexivity|]. split; [reflexivity|].
  rewrite (log_grows_at_front events _ _ R). reflexivity.
Defined.

(** * Pause and resume, and changes of the configuration *)

(** X9. Pausing a running session and pressing Start again leaves the
    whole state as it was, start marker, HP and counters included,
    except that the countdown restarts from the full duration of the
    current phase. *)
Theorem pause_then_start (s : State) (now : string) :
  isRunning s = true ->
  isSet (sessionStartRef s) = true ->
  isSet (Some now) = true ->
  run [ClickPause; ClickStart now] s
  = Some (setSecondsLeft (phaseSeconds (phase s) s) s).
Proof.
  intros R O N. destruct now as [|a now]; [discriminate N|].
  unfold phase, phaseSeconds.
  destruct s as [w b r ob sl h fn st fs ds hs m li ss [[|? ?]|] p]; cbn in R, O;
    try discriminate O.
  subst r. cbn. unfold render, pauseTimer, startTimer, workReloadEffect, breakReloadEffect.
  destruct ob; cbn; rewrite ?Z.eqb_refl; cbn; reflexivity.
Qed.

Lemma pause_then_start_witness :
  isRunning oneTickIn = true
  /\ secondsLeft oneTickIn = 1499
  /\ exists s', run [ClickPause; ClickStart "later"%string] oneTickIn = Some s'
       /\ secondsLeft s' = 1500
       /\ focusSec s' + distractSec s' = 1
       /\ sessionStartRef s' = Some (startIso exampleClock).
Proof.
  split; [reflexivity|]. split; [reflexivity|].
  eexists. split; [exact (pause_then_start oneTickIn "later" eq_refl eq_refl eq_refl)|].
  repeat split.
Defined.

(** X10. A change of the work or break minutes is clamped to the
    input's bounds and touches nothing but that setting and the
    countdown.  While the clock runs, and while the other phase is the
    current one, the countdown is left alone; while the clock is stopped
    in the matching phase with the full duration on the countdown, the
    countdown follows the new setting. *)
Theorem minutes_change_reloads_only_when_stopped (s : State) (v : Z) :
  (exists s', fire (ChangeWorkMinutes v) s = Some s'
     /\ workMinutes s' = Z.max 5 (Z.min 120 v)
     /\ setSecondsLeft 0 (setWorkMinutes 0 s') = setSecondsLeft 0 (setWorkMinutes 0 s)
     /\ (isRunning s = true -> secondsLeft s' = secondsLeft s)
     /\ (phase s = Break -> secondsLeft s' = secondsLeft s)
     /\ (isRunning s = false -> phase s = Work ->
         secondsLeft s = workMinutes s * 60 ->
         secondsLeft s' = workMinutes s' * 60))
  /\ (exists s', fire (ChangeBreakMinutes v) s = Some s'
     /\ breakMinutes s' = Z.max 3 (Z.min 60 v)
     /\ setSecondsLeft 0 (setBreakMinutes 0 s') = setSecondsLeft 0 (setBreakMinutes 0 s)
     /\ (isRunning s = true -> secondsLeft s' = secondsLeft s)
     /\ (phase s = Work -> secondsLeft s' = secondsLeft s)
     /\ (isRunning s = false -> phase s = Break ->
         secondsLeft s = breakMinutes s * 60 ->
         secondsLeft s' = breakMinutes s' * 60)).
Proof.
  split; eexists; (split; [reflexivity|]);
    unfold render, changeWorkMinutes, changeBreakMinutes,
      workReloadEffect, breakReloadEffect, phase;
    destruct s as [w b r ob sl h fn st fs ds hs m li ss sr p]; cbn;
    destruct r, ob; cbn;
    repeat match goal with
           | |- context [Z.eqb ?x ?y] => destruct (Z.eqb_spec x y); cbn
           end;
    repeat apply conj; try reflexivity; intros; try discriminate; congruence.
Qed.

Lemma minutes_change_reloads_only_when_stopped_witness :
  (exists s', fire (ChangeWorkMinutes 1000) (mount []) = Some s'
     /\ workMinutes s' = 120 /\ secondsLeft s' = 7200)
  /\ (exists s', fire (ChangeWorkMinutes 1000) oneTickIn = Some s'
     /\ workMinutes s' = 120 /\ secondsLeft s' = 1499).
Proof.
  destruct (minutes_change_reloads_only_when_stopped (mount []) 1000)
    as [(s1 & F1 & W1 & _ & _ & _ & S1) _].
  destruct (minutes_change_reloads_only_when_stopped oneTickIn 1000)
    as [(s2 & F2 & W2 & _ & S2 & _) _].
  split.
  - exists s1. split; [exact F1|]. split; [exact W1|].
    rewrite (S1 eq_refl eq_refl eq_refl), W1. reflexivity.
  - exists s2. split; [exact F2|]. split; [exact W2|].
    rewrite (S2 eq_refl). reflexivity.
Defined.

(** * How long the HP bar lasts *)

Lemma hp_tickUnder (a : AttentionState) (s : State) :
  hp (tickUnder a s)
  = match a with
    | Focused => clamp (hp s + 0.06) 0 100
    | Distracted | Unknown => clamp (hp s - 0.5) 0 100
    end%float.
Proof.
  unfold tickUnder. destruct (tick_score (setFocusedNow (ofAttention a) s)) as [E _].
  rewrite E, hp_scoreEngine, attention_setFocusedNow, hp_setFocusedNow. reflexivity.
Qed.

Lemma hp_unfocused_ticks (signals : list AttentionState) :
  forall s, Forall (fun a => a <> Focused) signals ->
    hp (ticksUnder signals s)
    = Nat.iter (List.length signals) (fun h => clamp (h - 0.5) 0 100) (hp s).
Proof.
  induction signals as [|a rest IH]; intros s H; [reflexivity|].
  inversion H as [|? ? Ha Hrest]; subst.
  cbn [ticksUnder fold_left List.length].
  change (fold_left (fun acc a0 => tickUnder a0 acc) rest (tickUnder a s))
    with (ticksUnder rest (tickUnder a s)).
  rewrite (IH _ Hrest), hp_tickUnder, Nat.iter_succ_r.
  destruct a; [congruence | reflexivity | reflexivity].
Qed.

Lemma hp_focused_ticks (n : nat) :
  forall s, hp (ticksUnder (repeat Focused n) s)
            = Nat.iter n (fun h => clamp (h + 0.06) 0 100) (hp s).
Proof.
  induction n as [|n IH]; intros s; [reflexivity|].
  cbn [repeat ticksUnder fold_left].
  change (fold_left (fun acc a0 => tickUnder a0 acc) (repeat Focused n)
            (tickUnder Focused s))
    with (ticksUnder (repeat Focused n) (tickUnder Focused s)).
  rewrite IH, hp_tickUnder, Nat.iter_succ_r. reflexivity.
Qed.

Lemma drained_empty (n : nat) : (200 <= n)%nat -> drained n = 0%float.
Proof.
  intros H. replace n with ((n - 200) + 200)%nat by lia.
  generalize (n - 200)%nat. clear. intros k.
  induction k as [|k IH]; [vm_compute; reflexivity|].
  change (drained (S k + 200)) with (clamp (drained (k + 200) - 0.5) 0 100).
  rewrite IH. reflexivity.
Qed.

Lemma drained_positive (n : nat) : (n < 200)%nat -> (0 <? drained n)%float = true.
Proof.
  intros H.
  assert (A : forallb (fun k => (0 <? drained k)%float) (seq 0 200) = true)
    by (vm_compute; reflexivity).
  rewrite forallb_forall in A. apply A. apply in_seq. lia.
Qed.

(** X11. From a full bar (HP = 100), ticks without focus (Distracted
    or Unknown, in any mix) leave HP above 0 for fewer than 200 ticks
    and exactly at 0 from the 200th on: 200 unfocused seconds empty the
    bar, and it stays empty. *)
Theorem full_bar_lasts_200_ticks (s : State) (signals : list AttentionState) :
  hp s = 100%float ->
  Forall (fun a => a <> Focused) signals ->
  let h := hp (ticksUnder signals s) in
  h = drained (List.length signals)
  /\ ((List.length signals < 200)%nat -> (0 <? h)%float = true)
  /\ ((200 <= List.length signals)%nat -> h = 0%float).
Proof.
  intros H F h. subst h. rewrite (hp_unfocused_ticks signals s F), H.
  change (Nat.iter (List.length signals) (fun h => clamp (h - 0.5) 0 100) 100%float)
    with (drained (List.length signals)).
  repeat apply conj; [reflexivity | apply drained_positive | apply drained_empty].
Qed.

Lemma full_bar_lasts_200_ticks_witness :
  hp justStarted = 100%float
  /\ hp (ticksUnder (repeat Unknown 199) justStarted) = 0.5%float
  /\ hp (ticksUnder (repeat Unknown 200) justStarted) = 0%float.
Proof.
  assert (F : forall n, Forall (fun a => a <> Focused) (repeat Unknown n))
    by (intros n; apply Forall_forall; intros a I;
        apply repeat_spec in I; subst a; discriminate).
  destruct (full_bar_lasts_200_ticks justStarted (repeat Unknown 199) eq_refl (F _))
    as (A & _).
  destruct (full_bar_lasts_200_ticks justStarted (repeat Unknown 200) eq_refl (F _))
    as (_ & _ & B).
  split; [reflexivity|]. split.
  - rewrite A, repeat_length. reflexivity.
  - apply B. rewrite repeat_length. apply le_n.
Defined.

Lemma refilled_full (n : nat) : (1667 <= n)%nat -> refilled n = 100%float.
Proof.
  intros H. replace n with ((n - 1667) + 1667)%nat by lia.
  generalize (n - 1667)%nat. clear. intros k.
  induction k as [|k IH]; [vm_compute; reflexivity|].
  change (refilled (S k + 1667)) with (clamp (refilled (k + 1667) + 0.06) 0 100).
  rewrite IH. reflexivity.
Qed.

Lemma refilled_short (n : nat) : (n < 1667)%nat -> (refilled n <? 100)%float = true.
Proof.
  intros H.
  assert (A : forallb (fun k => (refilled k <? 100)%float) (seq 0 1667) = true)
    by (vm_compute; reflexivity).
  rewrite forallb_forall in A. apply A. apply in_seq. lia.
Qed.

(** X12. From an empty bar (HP = 0), focused ticks leave HP below 100
    for fewer than 1667 ticks and exactly at 100 from the 1667th on:
    filling the bar takes more than eight times as long as emptying it. *)
Theorem empty_bar_fills_in_1667_ticks (s : State) (n : nat) :
  hp s = 0%float ->
  let h := hp (ticksUnder (repeat Focused n) s) in
  h = refilled n
  /\ ((n < 1667)%nat -> (h <? 100)%float = true)
  /\ ((1667 <= n)%nat -> h = 100%float).
Proof.
  intros H h. subst h. rewrite (hp_focused_ticks n s), H.
  change (Nat.iter n (fun h => clamp (h + 0.06) 0 100) 0%float) with (refilled n).
  repeat apply conj; [reflexivity | apply refilled_short | apply refilled_full].
Qed.

Lemma empty_bar_fills_in_1667_ticks_witness :
  let s := ticksUnder (repeat Distracted 200) justStarted in
  hp s = 0%float
  /\ (hp (ticksUnder (repeat Focused 1666) s) <? 100)%float = true
  /\ hp (ticksUnder (repeat Focused 1667) s) = 100%float.
Proof.
  intros s.
  assert (Z0 : hp s = 0%float) by (vm_compute; reflexivity).
  destruct (empty_bar_fills_in_1667_ticks s 1666 Z0) as (_ & A & _).
  destruct (empty_bar_fills_in_1667_ticks s 1667 Z0) as (_ & _ & B).
  split; [exact Z0|]. split; [apply A; lia | apply B; lia].
Defined.

(** * Frames without a detector *)

Lemma outage_unknown (frames : list (float * Detection)) :
  forall s, frames <> [] -> outage frames s = setFocusedNow None s.
Proof.
  induction frames as [|[ts d] rest IH]; intros s H; [congruence|].
  cbn [outage]. destruct rest as [|f rest'].
  - reflexivity.
  - rewrite IH by discriminate. cbn. destruct s; reflexivity.
Qed.

(** X13. Frames that arrive while the detector or the video is not
    ready set the attention state to Unknown and change nothing else:
    they neither reset the streak nor count as samples, so the next
    sample's elapsed time is measured from the last inference before
    them, and an absent sample then adds the whole of it to the streak. *)
Theorem outage_is_not_a_sample
    (frames : list (float * Detection)) (s : State) (ts : float) (count : nat) :
  frames <> [] ->
  outage frames s = setFocusedNow None s
  /\ attention (outage frames s) = Unknown
  /\ (let after := loop ts true (Faces count) (outage frames s) in
      let direct := loop ts true (Faces count) s in
      distractionStreakMs after = distractionStreakMs direct
      /\ lastInferTs after = lastInferTs direct
      /\ ((200 <? ts - lastInferTs s)%float = true -> count = 0%nat ->
          distractionStreakMs after
          = (distractionStreakMs s + (ts - lastInferTs s))%float)).
Proof.
  intros H. rewrite (outage_unknown frames s H).
  destruct s as [? ? ? ? ? ? fn st ? ? ? ? li ? ? ?]; unfold loop, attention; cbn.
  split; [reflexivity|]. split; [reflexivity|].
  destruct (200 <? ts - li)%float eqn:G; cbn.
  - destruct count as [|n]; cbn.
    + destruct (1500 <? st + (ts - li))%float; cbn;
        repeat apply conj; try reflexivity; intros; reflexivity.
    + repeat apply conj; try reflexivity. intros _ Q. discriminate Q.
  - repeat apply conj; try reflexivity. intros Q. discriminate Q.
Qed.

Lemma outage_is_not_a_sample_witness :
  let s := loop 1000 true (Faces 1) justStarted in
  let frames := [(1500%float, Faces 1); (9000%float, Throws)] in
  frames <> []
  /\ attention (outage frames s) = Unknown
  /\ distractionStreakMs (loop 9100 true (Faces 0) (outage frames s)) = 8100%float
  /\ attention (loop 9100 true (Faces 0) (outage frames s)) = Distracted.
Proof.
  intros s frames.
  assert (N : frames <> []) by discriminate.
  destruct (outage_is_not_a_sample frames s 9100 0 N) as (_ & A & _ & _ & B).
  split; [exact N|]. split; [exact A|].
  split; [rewrite (B eq_refl eq_refl); reflexivity | reflexivity].
Defined.

(** * The mode label *)

Ltac decide_tests :=
  repeat match goal with
         | |- context [Z.eqb ?x ?x] => rewrite (Z.eqb_refl x)
         | |- context [Z.eqb ?x ?y] => destruct (Z.eqb_spec x y); cbn
         | |- context [Z.leb ?x ?y] => destruct (Z.leb x y); cbn
         | |- context [PrimFloat.ltb ?x ?y] => destruct (PrimFloat.ltb x y); cbn
         end.

Lemma fire_sameButModeAndLog (e : Event) (s t : State) :
  sameButModeAndLog s t ->
  if isChangeMode e
  then exists s', fire e s = Some s' /\ sameButModeAndLog s' t
  else match fire e s, fire e t with
       | Some s', Some t' => sameButModeAndLog s' t'
       | None, None => True
       | _, _ => False
       end.
Proof.
  unfold sameButModeAndLog. intros H.
  destruct s as [w b r ob sl h fn st fs ds hs m li ss sr p].
  destruct t as [w' b' r' ob' sl' h' fn' st' fs' ds' hs' m' li' ss' sr' p'].
  cbn in H. injection H as -> -> -> -> -> -> -> -> -> -> -> -> ->.
  destruct e; cbn [isChangeMode fire isRunning].
  - destruct now as [|a now]; cbn; [exact I|].
    unfold render, startTimer, workReloadEffect, breakReloadEffect.
    destruct r', ob', sr' as [[|? ?]|]; cbn; decide_tests; reflexivity.
  - unfold render, pauseTimer, workReloadEffect, breakReloadEffect.
    destruct r', ob'; cbn; decide_tests; reflexivity.
  - unfold render, resetTimer, workReloadEffect, breakReloadEffect.
    destruct r', ob'; cbn; decide_tests; reflexivity.
  - unfold render, stopAndSave, workReloadEffect, breakReloadEffect.
    destruct r', ob'; cbn -[slice0 sessionLog]; decide_tests; reflexivity.
  - destruct r'; [|exact I].
    rewrite !render_tick by reflexivity. unfold tick.
    destruct fn' as [[|]|], ob'; cbn; decide_tests; reflexivity.
  - rewrite !render_loop. unfold loop.
    destruct ready; cbn; [|reflexivity].
    destruct (200 <? ts - li')%float; cbn; [|reflexivity].
    destruct d as [[|n]|]; cbn; decide_tests; reflexivity.
  - unfold render, changeWorkMinutes, workReloadEffect, breakReloadEffect.
    destruct r', ob'; cbn; decide_tests; reflexivity.
  - unfold render, changeBreakMinutes, workReloadEffect, breakReloadEffect.
    destruct r', ob'; cbn; decide_tests; reflexivity.
  - eexists. split; [reflexivity|].
    unfold render, workReloadEffect, breakReloadEffect.
    destruct r', ob'; cbn; decide_tests; reflexivity.
Qed.

(** X14. The mode label has no effect on the state machine: dropping
    every change of mode from a run leaves a run that fails or succeeds
    alike and ends in a state equal in every field but the mode and the
    session log (whose entries carry the mode). *)
Theorem mode_changes_nothing_else (events : list Event) :
  forall s t,
    sameButModeAndLog s t ->
    match run events s, run (filter (fun e => negb (isChangeMode e)) events) t with
    | Some s', Some t' => sameButModeAndLog s' t'
    | None, None => True
    | _, _ => False
    end.
Proof.
  induction events as [|e rest IH]; intros s t H; [exact H|].
  pose proof (fire_sameButModeAndLog e s t H) as F.
  cbn [run filter]. destruct (isChangeMode e); cbn [negb].
  - destruct F as (s' & -> & H'). apply IH, H'.
  - cbn [run]. destruct (fire e s) as [s'|], (fire e t) as [t'|];
      try contradiction; [apply IH, F | exact I].
Qed.

Lemma mode_changes_nothing_else_witness :
  let events := [ChangeMode beta; ClickStart (startIso exampleClock);
                 IntervalTick; ChangeMode alpha; IntervalTick; ChangeMode beta] in
  exists s' t',
    run events (mount []) = Some s'
    /\ run [ClickStart (startIso exampleClock); IntervalTick; IntervalTick] (mount [])
       = Some t'
    /\ mode s' = beta /\ mode t' = alpha
    /\ sameButModeAndLog s' t'.
Proof.
  intros events.
  pose proof (mode_changes_nothing_else events (mount []) (mount []) eq_refl) as H.
  cbn [filter isChangeMode negb events] in H.
  destruct (run events (mount [])) as [s'|] eqn:R1;
    [|vm_compute in R1; discriminate R1].
  destruct (run _ (mount [])) as [t'|] eqn:R2 in H; [|contradiction].
  exists s', t'. split; [reflexivity|]. split; [exact R2|].
  split; [vm_compute in R1; injection R1 as <-; reflexivity|].
  split; [vm_compute in R2; injection R2 as <-; reflexivity | exact H].
Defined.

(** * The clock text *)

Lemma integerText_nonneg (n : Z) :
  0 <= n ->
  exists d, d <> Decimal.Nil
    /\ integerText n = NilEmpty.string_of_uint d
    /\ Z.of_uint d = n.
Proof.
  intros H. pose proof (DecimalZ.of_to n) as E. unfold integerText.
  destruct n as [|p|p]; [| |lia].
  - exists (Decimal.D0 Decimal.Nil). repeat split. discriminate.
  - exists (Pos.to_uint p). cbn in *.
    pose proof (DecimalPos.Unsigned.to_uint_nonnil p) as N.
    repeat split; auto. destruct (Pos.to_uint p); [congruence | reflexivity ..].
Qed.

Lemma digits_padStart (k : nat) (d : Decimal.uint) :
  d <> Decimal.Nil ->
  exists d', d' <> Decimal.Nil
    /\ padStart k "0" (NilEmpty.string_of_uint d) = NilEmpty.string_of_uint d'
    /\ Z.of_uint d' = Z.of_uint d.
Proof.
  intros N. unfold padStart.
  induction (k - String.length (NilEmpty.string_of_uint d))%nat as [|j (d' & N' & E & V)].
  - exists d. repeat split. exact N.
  - exists (Decimal.D0 d'). rewrite Nat.iter_succ, E.
    repeat split; [discriminate | exact V].
Qed.

Lemma digitsValue_digits (d : Decimal.uint) :
  d <> Decimal.Nil ->
  digitsValue (NilEmpty.string_of_uint d) = Some (Z.of_uint d).
Proof.
  intros N. unfold digitsValue.
  replace (NilEmpty.string_of_uint d) with (NilZero.string_of_uint d)
    by (destruct d; [congruence | reflexivity ..]).
  rewrite (NilZero.usu d N). reflexivity.
Qed.

Lemma splitColon_digits (d : Decimal.uint) (rest : string) :
  splitColon (NilEmpty.string_of_uint d ++ String ":" rest)
  = Some (NilEmpty.string_of_uint d, rest).
Proof.
  induction d; cbn; try rewrite IHd; reflexivity.
Qed.

(** X15. The clock text of a non-negative whole number of seconds (up
    to the largest integer a JavaScript number holds exactly) reads back
    as that number: the digits before the colon are the whole minutes,
    the two after it the remaining seconds.  This covers the countdown
    and the durations of the saved sessions, which are never negative. *)
Theorem formatMMSS_reads_back (t : Z) :
  0 <= t <= 9007199254740991 -> readMMSS (formatMMSS t) = Some t.
Proof.
  intros [H _]. unfold formatMMSS, readMMSS.
  assert (Hq : 0 <= t / 60) by (apply Z.div_pos; lia).
  assert (Hr : 0 <= Z.rem t 60) by (apply Z.rem_nonneg; lia).
  destruct (integerText_nonneg _ Hq) as (dq & Nq & Eq & Vq).
  destruct (integerText_nonneg _ Hr) as (dr & Nr & Er & Vr).
  rewrite Eq, Er.
  destruct (digits_padStart 2 dq Nq) as (dq' & Nq' & Eq' & Vq').
  destruct (digits_padStart 2 dr Nr) as (dr' & Nr' & Er' & Vr').
  rewrite Eq', Er'.
  change (":" ++ NilEmpty.string_of_uint dr')%string
    with (String ":" (NilEmpty.string_of_uint dr')).
  rewrite splitColon_digits, !digitsValue_digits by assumption.
  rewrite Vq', Vr', Vq, Vr. f_equal.
  rewrite Z.rem_mod_nonneg by lia. pose proof (Z.div_mod t 60). lia.
Qed.

Lemma formatMMSS_reads_back_witness :
  0 <= 1499 <= 9007199254740991
  /\ formatMMSS 1499 = "24:59"%string
  /\ readMMSS (formatMMSS 1499) = Some 1499.
Proof.
  split; [lia|]. split; [reflexivity|].
  apply formatMMSS_reads_back. lia.
Defined.

Lemma padStart_two_digits (n : Z) :
  0 <= n < 100 -> String.length (padStart 2 "0" (integerText n)) = 2%nat.
Proof.
  intros H.
  assert (A : forallb (fun k => Nat.eqb (String.length
                                  (padStart 2 "0" (integerText (Z.of_nat k)))) 2)
                (seq 0 100) = true) by (vm_compute; reflexivity).
  rewrite forallb_forall in A. specialize (A (Z.to_nat n)).
  rewrite Z2Nat.id in A by lia. apply Nat.eqb_eq, A, in_seq. lia.
Qed.

Lemma length_append (a b : string) :
  String.length (a ++ b) = (String.length a + String.length b)%nat.
Proof. induction a; cbn; [reflexivity | rewrite IHa; reflexivity]. Qed.

(** X16. For fewer than 100 minutes (0 <= t < 6000) the clock text has
    exactly five characters: two for the minutes, the colon, two for
    the seconds. *)
Theorem formatMMSS_five_characters (t : Z) :
  0 <= t < 6000 ->
  String.length (formatMMSS t) = 5%nat
  /\ String.get 2 (formatMMSS t) = Some ":"%char.
Proof.
  intros H. unfold formatMMSS.
  assert (Hq : 0 <= t / 60 < 100)
    by (split; [apply Z.div_pos; lia | apply Z.div_lt_upper_bound; lia]).
  assert (Hr : 0 <= Z.rem t 60 < 100)
    by (rewrite Z.rem_mod_nonneg by lia; pose proof (Z.mod_pos_bound t 60); lia).
  pose proof (padStart_two_digits _ Hq) as Lq.
  pose proof (padStart_two_digits _ Hr) as Lr.
  split.
  - rewrite !length_append, Lq, Lr. reflexivity.
  - destruct (padStart 2 "0" (integerText (t / 60))) as [|a [|b [|? ?]]];
      try discriminate Lq. reflexivity.
Qed.

Lemma formatMMSS_five_characters_witness :
  0 <= 300 < 6000 /\ formatMMSS 300 = "05:00"%string
  /\ String.length (formatMMSS 300) = 5%nat.
Proof.
  split; [lia|]. split; [reflexivity|].
  apply formatMMSS_five_characters. lia.
Defined.

(** * The CSV export *)

Lemma lacks_append (c : ascii) (a b : string) :
  lacks c (a ++ b) = lacks c a && lacks c b.
Proof.
  induction a; cbn; [reflexivity|]. rewrite IHa. apply andb_assoc.
Qed.

Lemma lacks_concat (c : ascii) (sep : string) (cells : list string) :
  lacks c sep = true ->
  Forall (fun cell => lacks c cell = true) cells ->
  lacks c (String.concat sep cells) = true.
Proof.
  intros Hs H. induction H as [|x l Hx Hl IH]; [reflexivity|].
  destruct l as [|y l']; [exact Hx|].
  change (String.concat sep (x :: y :: l'))
    with (x ++ sep ++ String.concat sep (y :: l'))%string.
  rewrite !lacks_append, Hx, Hs, IH. reflexivity.
Qed.

Lemma splitOn_lacks (sep : ascii) (text : string) :
  lacks sep text = true -> splitOn sep text = [text].
Proof.
  induction text as [|c rest IH]; cbn; [reflexivity|].
  intros H. apply andb_prop in H. destruct H as [H1 H2].
  apply negb_true_iff in H1. rewrite H1, (IH H2). reflexivity.
Qed.

Lemma splitOn_append (sep : ascii) (a b : string) :
  lacks sep a = true ->
  splitOn sep (a ++ String sep b) = a :: splitOn sep b.
Proof.
  induction a as [|c rest IH]; cbn.
  - intros _. rewrite Ascii.eqb_refl. reflexivity.
  - intros H. apply andb_prop in H. destruct H as [H1 H2].
    apply negb_true_iff in H1. rewrite H1, (IH H2). reflexivity.
Qed.

(** Splitting what was joined gives the pieces back, when no piece
    holds the separator. *)
Lemma splitOn_concat (sep : ascii) (pieces : list string) :
  pieces <> [] ->
  Forall (fun piece => lacks sep piece = true) pieces ->
  splitOn sep (String.concat (String sep EmptyString) pieces) = pieces.
Proof.
  intros N H. induction H as [|x l Hx Hl IH]; [congruence|].
  destruct l as [|y l']; [apply splitOn_lacks, Hx|].
  change (String.concat (String sep EmptyString) (x :: y :: l'))
    with (x ++ String sep (String.concat (String sep EmptyString) (y :: l')))%string.
  rewrite (splitOn_append sep x _ Hx), IH by discriminate. reflexivity.
Qed.

Lemma lacks_digits (c : ascii) (d : Decimal.uint) :
  lacks c "0123456789" = true -> lacks c (NilEmpty.string_of_uint d) = true.
Proof.
  intros H. cbn in H.
  repeat (apply andb_prop in H; let E := fresh "E" in destruct H as [E H]).
  induction d; cbn; rewrite ?IHd; rewrite ?E, ?E0, ?E1, ?E2, ?E3, ?E4, ?E5, ?E6, ?E7, ?E8;
    reflexivity.
Qed.

Lemma lacks_uintText (c : ascii) (d : Decimal.uint) :
  lacks c "0123456789" = true -> lacks c (NilZero.string_of_uint d) = true.
Proof.
  intros H.
  destruct d; [exact (lacks_digits c (Decimal.D0 Decimal.Nil) H) | ..];
    cbn [NilZero.string_of_uint]; apply lacks_digits, H.
Qed.

Lemma lacks_integerText (c : ascii) (n : Z) :
  lacks c "-0123456789" = true -> lacks c (integerText n) = true.
Proof.
  intros H. cbn [lacks] in H. apply andb_prop in H. destruct H as [Hm Hd].
  unfold integerText. destruct (Z.to_int n) as [d|d]; cbn [NilZero.string_of_int lacks].
  - apply lacks_uintText, Hd.
  - rewrite Hm. apply lacks_uintText, Hd.
Qed.

Lemma csvCells_safe (Number_toString : float -> string) (r : SessionLog.t) :
  forallb csvSafe (freeCells Number_toString r) = true ->
  Forall (fun cell => csvSafe cell = true) (csvCells Number_toString r).
Proof.
  intros H. cbn in H.
  repeat (apply andb_prop in H; let E := fresh "E" in destruct H as [E H]).
  assert (I : forall n, csvSafe (integerText n) = true)
    by (intros n; unfold csvSafe; rewrite !lacks_integerText; reflexivity).
  unfold csvCells. repeat constructor; auto.
  destruct (SessionLog.mode r); reflexivity.
Qed.

Lemma csvSafe_lacks (cells : list string) :
  Forall (fun cell => csvSafe cell = true) cells ->
  Forall (fun cell => lacks "," cell = true) cells
  /\ Forall (fun cell => lacks lineFeed cell = true) cells.
Proof.
  intros H. split; eapply Forall_impl; try exact H; cbn;
    intros cell S; apply andb_prop in S; destruct S; assumption.
Qed.

(** X17. The CSV text splits back into its cells: cutting it at the
    line feeds and each line at the commas gives the header row and,
    for each session in order, its eleven cells, provided no id, start
    or end time or printed HP value holds a comma or a line feed (the
    text is joined without quoting or escaping). *)
Theorem toCSV_splits_back (Number_toString : float -> string) (rows : list SessionLog.t) :
  Forall (fun r => forallb csvSafe (freeCells Number_toString r) = true) rows ->
  map (splitOn ",") (splitOn lineFeed (toCSV Number_toString rows))
  = csvHeader :: map (csvCells Number_toString) rows.
Proof.
  intros H. unfold toCSV.
  assert (L : Forall (fun line => lacks lineFeed line = true)
                (map (fun r => String.concat "," (csvCells Number_toString r)) rows)).
  { apply Forall_map. eapply Forall_impl; [|exact H]. cbn beta. intros r S.
    apply lacks_concat; [reflexivity|].
    apply (csvSafe_lacks _ (csvCells_safe Number_toString r S)). }
  rewrite splitOn_concat; [|discriminate|constructor; [reflexivity | exact L]].
  cbn [map]. f_equal. rewrite map_map.
  clear L. induction H as [|r rest S _ IH]; [reflexivity|].
  cbn [map]. rewrite IH. f_equal.
  apply (splitOn_concat "," (csvCells Number_toString r)); [discriminate|].
  apply (csvSafe_lacks _ (csvCells_safe Number_toString r S)).
Qed.

(** The entry saved right after a first Start: both HP values are 100. *)
Lemma toCSV_splits_back_witness :
  let print := fun _ : float => "100"%string in
  let row := sessionLog exampleClock justStarted in
  SessionLog.hpStart row = 100%float
  /\ SessionLog.hpEnd row = 100%float
  /\ forallb csvSafe (freeCells print row) = true
  /\ map (splitOn ",") (splitOn lineFeed (toCSV print [row]))
     = [csvHeader;
        ["1767258015000"; "2026-01-01T09:00:00.000Z"; "2026-01-01T09:00:15.000Z";
         "0"; "25"; "5"; "0"; "0"; "100"; "100"; "alpha"]%string].
Proof.
  intros print row.
  split; [reflexivity|]. split; [reflexivity|]. split; [reflexivity|].
  rewrite (toCSV_splits_back print [row]); [reflexivity|].
  constructor; [reflexivity | constructor].
Defined.

(** * Whole phases and whole runs of ticks *)




Lemma counters_tickUnder (a : AttentionState) (s : State) :
  focusSec (tickUnder a s)
  = focusSec s + (match a with Focused => 1 | _ => 0 end)
  /\ distractSec (tickUnder a s)
     = distractSec s + (match a with Focused => 0 | _ => 1 end).
Proof.
  unfold tickUnder.
  destruct (tick_score (setFocusedNow (ofAttention a) s)) as (_ & Ef & Ed).
  pose proof (counters_scoreEngine (setFocusedNow (ofAttention a) s)) as Hc.
  rewrite attention_setFocusedNow in Hc. rewrite Ef, Ed.
  assert (F : focusSec (setFocusedNow (ofAttention a) s) = focusSec s
              /\ distractSec (setFocusedNow (ofAttention a) s) = distractSec s)
    by (destruct s; split; reflexivity).
  destruct F as [F1 F2]. rewrite F1, F2 in Hc.
  destruct a; destruct Hc as [-> ->]; split; lia.
Qed.

(** X19. Over any sequence of ticks, focusSec grows by exactly the
    number of ticks that found the attention state Focused, and
    distractSec by the number of all the others (Distracted or
    Unknown). *)
Theorem counters_count_signals (signals : list AttentionState) :
  forall s,
    let focused := List.length (filter (fun a => match a with Focused => true | _ => false end)
                                  signals) in
    focusSec (ticksUnder signals s) = focusSec s + Z.of_nat focused
    /\ distractSec (ticksUnder signals s)
       = distractSec s + Z.of_nat (List.length signals - focused).
Proof.
  induction signals as [|a rest IH]; intros s; cbn zeta.
  - cbn. split; lia.
  - cbn [ticksUnder fold_left].
    change (fold_left (fun acc a0 => tickUnder a0 acc) rest (tickUnder a s))
      with (ticksUnder rest (tickUnder a s)).
    destruct (IH (tickUnder a s)) as [E1 E2]. rewrite E1, E2.
    destruct (counters_tickUnder a s) as [-> ->].
    pose proof (filter_length_le
                  (fun a => match a with Focused => true | _ => false end) rest) as B.
    destruct a; cbn [filter List.length]; split; lia.
Qed.

(** * Progress of the phase *)



